(** * The langextract bridge scripts

    A shallow embedding of the two command-line runners of the repository,
    [scripts/enhanced_langextract_runner.py] (Runner A, configuration read
    from standard input) and [scripts/langextract_runner.py] (Runner B,
    configuration read from a file), and the properties their specification
    states about them.

    Everything outside the two scripts (the file system, the network, the
    document parsers, the extraction library, the clock, the names of
    temporary files) is an oracle held in a record of the runner's world;
    the scripts themselves are functions of that world. *)

From Stdlib Require Import ZArith String Ascii List Bool.
From Stdlib Require Import PrimFloat Uint63 DecimalString.
From stdpp Require Import gmap strings list.

Set Warnings "-inexact-float,-register-all".

(** ** Python values and built-ins used by the scripts *)

Module Py.

(** An exception: [type(e).__name__] and [str(e)]. *)
Record Exn := mkExn { exn_type : string; exn_msg : string }.

(** The result of code that may raise. *)
Inductive res (A : Type) : Type :=
  | Ok (a : A)
  | Raise (e : Exn).
Arguments Ok {A} a.
Arguments Raise {A} e.

#[export] Instance res_ret : MRet res := @Ok.
#[export] Instance res_bind : MBind res :=
  λ A B f m, match m with Ok a => f a | Raise e => Raise e end.

Definition ValueError (msg : string) : Exn := mkExn "ValueError" msg.
Definition TypeError (msg : string) : Exn := mkExn "TypeError" msg.
Definition AttributeError (msg : string) : Exn := mkExn "AttributeError" msg.
(** [str(KeyError(k))] is [repr(k)]: the key between single quotes. *)
Definition KeyError (key : string) : Exn := mkExn "KeyError" ("'" +:+ key +:+ "'").

(** [try: m  except Exception as e: raise ValueError(f"{prefix}{str(e)}")] *)
Definition reraise {A} (prefix : string) (m : res A) : res A :=
  match m with
  | Ok a => Ok a
  | Raise e => Raise (ValueError (prefix +:+ exn_msg e))
  end.

(** Decoded JSON, which is also what [json.dumps] takes. A dict keeps its
    insertion order, which is the order [json.dumps] writes it in. *)
Inductive json : Type :=
  | JNull
  | JBool (b : bool)
  | JInt (z : Z)
  | JFloat (f : float)
  | JStr (s : string)
  | JList (l : list json)
  | JObj (fields : list (string * json)).

Definition of_option (o : option string) : json :=
  match o with Some s => JStr s | None => JNull end.

Definition nonempty (s : string) : bool :=
  match s with EmptyString => false | String _ _ => true end.

(** Truth value of an object, as [if v], [v or d] and [not v] test it. *)
Definition truthy (v : json) : bool :=
  match v with
  | JNull => false
  | JBool b => b
  | JInt z => negb (z =? 0)%Z
  | JFloat f => negb (PrimFloat.eqb f 0%float)
  | JStr s => nonempty s
  | JList l => match l with [] => false | _ => true end
  | JObj fs => match fs with [] => false | _ => true end
  end.

(** [a or b] *)
Definition or_else (a b : json) : json := if truthy a then a else b.

Definition type_name (v : json) : string :=
  match v with
  | JNull => "NoneType"
  | JBool _ => "bool"
  | JInt _ => "int"
  | JFloat _ => "float"
  | JStr _ => "str"
  | JList _ => "list"
  | JObj _ => "dict"
  end.

Fixpoint lookup_field (k : string) (fs : list (string * json)) : option json :=
  match fs with
  | [] => None
  | (k', v) :: fs' => if String.eqb k k' then Some v else lookup_field k fs'
  end.

(** [v[k]] for a string [k]. *)
Definition getitem (v : json) (k : string) : res json :=
  match v with
  | JObj fs =>
      match lookup_field k fs with
      | Some x => Ok x
      | None => Raise (KeyError k)
      end
  | JList _ => Raise (TypeError "list indices must be integers or slices, not str")
  | JStr _ => Raise (TypeError "string indices must be integers, not 'str'")
  | _ => Raise (TypeError ("'" +:+ type_name v +:+ "' object is not subscriptable"))
  end.

(** [v.get(k, d)] *)
Definition get_method (v : json) (k : string) (d : json) : res json :=
  match v with
  | JObj fs => Ok (default d (lookup_field k fs))
  | _ => Raise (AttributeError
                  ("'" +:+ type_name v +:+ "' object has no attribute 'get'"))
  end.

Fixpoint chars (s : string) : list string :=
  match s with
  | EmptyString => []
  | String c s' => String c EmptyString :: chars s'
  end.

(** The items [for x in v] goes through. *)
Definition iterate (v : json) : res (list json) :=
  match v with
  | JList l => Ok l
  | JObj fs => Ok (map (λ kv, JStr (fst kv)) fs)
  | JStr s => Ok (map JStr (chars s))
  | _ => Raise (TypeError ("'" +:+ type_name v +:+ "' object is not iterable"))
  end.

(** [os.fspath(v)], which [mimetypes.guess_type] applies to its argument. *)
Definition fspath (v : json) : res string :=
  match v with
  | JStr s => Ok s
  | _ => Raise (TypeError ("expected str, bytes or os.PathLike object, not "
                           +:+ type_name v))
  end.

(** *** Strings

    A [str] is modelled as a [string] whose characters are code points
    below 256. *)

Definition nl : string := String (ascii_of_nat 10) EmptyString.
Definition tab : string := String (ascii_of_nat 9) EmptyString.

(** The code points below 256 that [str.strip()] removes. *)
Definition is_space (c : ascii) : bool :=
  let n := nat_of_ascii c in
  ((9 <=? n) && (n <=? 13)) || ((28 <=? n) && (n <=? 32))
  || (n =? 133) || (n =? 160).

Fixpoint lstrip (s : string) : string :=
  match s with
  | EmptyString => EmptyString
  | String c s' => if is_space c then lstrip s' else s
  end.

Definition rstrip (s : string) : string := String.rev (lstrip (String.rev s)).

Definition strip (s : string) : string := rstrip (lstrip s).

(** [s.startswith(p)] *)
Definition startswith (s p : string) : bool := String.prefix p s.

(** [needle in hay] *)
Fixpoint contains (needle hay : string) : bool :=
  String.prefix needle hay ||
  match hay with
  | EmptyString => false
  | String _ hay' => contains needle hay'
  end.

(** Whether [s] holds the code point 0. *)
Fixpoint has_nul (s : string) : bool :=
  match s with
  | EmptyString => false
  | String c s' => (nat_of_ascii c =? 0) || has_nul s'
  end.

Definition is_str (k : string) (v : json) : bool :=
  match v with JStr s => String.eqb s k | _ => false end.

(** [k in v] for a string [k]: a key of a dict, an item of a list, a
    substring of a string. *)
Definition has_item (v : json) (k : string) : res bool :=
  match v with
  | JObj fs => Ok (bool_decide (is_Some (lookup_field k fs)))
  | JList l => Ok (existsb (is_str k) l)
  | JStr s => Ok (contains k s)
  | _ => Raise (TypeError ("argument of type '" +:+ type_name v
                           +:+ "' is not iterable"))
  end.

(** [sep.join(l)] *)
Definition join (sep : string) (l : list string) : string := String.concat sep l.

(** [len(s)] *)
Definition len (s : string) : json := JInt (Z.of_nat (String.length s)).

(** *** Numbers

    An [int] is converted to a [float] when it meets one; the conversion
    below is the correctly rounded one for integers of magnitude under
    2^63, which covers every length and count the scripts compute. *)

Definition float_of_Z (z : Z) : float :=
  if (z <? 0)%Z then PrimFloat.opp (PrimFloat.of_uint63 (Uint63.of_Z (- z)))
  else PrimFloat.of_uint63 (Uint63.of_Z z).

Definition unsupported (op : string) (a b : json) : Exn :=
  TypeError ("unsupported operand type(s) for " +:+ op +:+ ": '" +:+ type_name a
             +:+ "' and '" +:+ type_name b +:+ "'").

(** The number an object stands for in arithmetic ([bool] is an [int]). *)
Inductive number := NInt (z : Z) | NFloat (f : float).

Definition as_number (v : json) : option number :=
  match v with
  | JInt z => Some (NInt z)
  | JBool b => Some (NInt (if b then 1 else 0))
  | JFloat f => Some (NFloat f)
  | _ => None
  end.

Definition to_float (n : number) : float :=
  match n with NInt z => float_of_Z z | NFloat f => f end.

(** [a + b] on numbers. *)
Definition add (a b : json) : res json :=
  match as_number a, as_number b with
  | Some (NInt x), Some (NInt y) => Ok (JInt (x + y))
  | Some x, Some y => Ok (JFloat (PrimFloat.add (to_float x) (to_float y)))
  | _, _ => Raise (unsupported "+" a b)
  end.

(** [a / b] on numbers, for a divisor that is not zero. *)
Definition truediv (a b : json) : res json :=
  match as_number a, as_number b with
  | Some x, Some y => Ok (JFloat (PrimFloat.div (to_float x) (to_float y)))
  | _, _ => Raise (unsupported "/" a b)
  end.

(** [sum(l)]: the additions from left to right, starting from the
    integer 0. (From CPython 3.12 on, [sum] carries a compensation term
    through float items, which can change the last bits of a sum; the
    plain additions are modelled here.) *)
Fixpoint sum_from (acc : json) (l : list json) : res json :=
  match l with
  | [] => Ok acc
  | x :: l' => acc' ← add acc x; sum_from acc' l'
  end.

Definition sum (l : list json) : res json := sum_from (JInt 0) l.

(** [len(l)] of a list. *)
Definition len_list {A} (l : list A) : json := JInt (Z.of_nat (length l)).

(** The same on floats alone: what [sum(l) / len(l)] comes to when every
    item of a non-empty [l] is a float. *)
Definition float_sum (l : list float) : float := fold_left PrimFloat.add l 0%float.

Definition float_mean (l : list float) : float :=
  PrimFloat.div (float_sum l) (float_of_Z (Z.of_nat (length l))).

(** *** [json.dumps] with its default arguments

    [ensure_ascii] escapes every character outside [' '..'~'], the quote and
    the backslash; items are separated by [", "] and keys by [": "]. The
    text of a float is [float.__repr__], a parameter here. *)

Definition dquote : string := String (ascii_of_nat 34) EmptyString.

Definition hex_digit (n : nat) : ascii :=
  ascii_of_nat (if n <? 10 then 48 + n else 87 + n).

Definition escape_char (c : ascii) : string :=
  let n := nat_of_ascii c in
  if n =? 34 then "\" +:+ dquote
  else if n =? 92 then "\\"
  else if n =? 10 then "\n"
  else if n =? 13 then "\r"
  else if n =? 9 then "\t"
  else if n =? 8 then "\b"
  else if n =? 12 then "\f"
  else if (32 <=? n) && (n <=? 126) then String c EmptyString
  else "\u00" +:+ String (hex_digit (n / 16)) (String (hex_digit (n mod 16)) EmptyString).

Fixpoint escape (s : string) : string :=
  match s with
  | EmptyString => EmptyString
  | String c s' => escape_char c +:+ escape s'
  end.

Definition quote (s : string) : string := dquote +:+ escape s +:+ dquote.

Definition int_repr (z : Z) : string := NilZero.string_of_int (Z.to_int z).

Section Dumps.
Variable float_repr : float → string.

Fixpoint dumps (v : json) : string :=
  match v with
  | JNull => "null"
  | JBool true => "true"
  | JBool false => "false"
  | JInt z => int_repr z
  | JFloat f => float_repr f
  | JStr s => quote s
  | JList l => "[" +:+ join ", " (map dumps l) +:+ "]"
  | JObj fs =>
      "{" +:+ join ", " (map (λ kv, quote (fst kv) +:+ ": " +:+ dumps (snd kv)) fs)
      +:+ "}"
  end.

End Dumps.

End Py.

(** ** The extraction library, as the scripts see it *)

Module Lx.
Import Py.

(** [lx.data.Extraction(extraction_class=, extraction_text=, attributes=)],
    as built for an example. *)
Record Extraction := {
  extraction_class : json;
  extraction_text : json;
  attributes : json
}.

(** [lx.data.ExampleData(text=, extractions=)] *)
Record ExampleData := {
  text : json;
  extractions : list Extraction
}.

(** The keyword arguments of one [lx.extract] call. [max_char_buffer] is
    passed by Runner A only and [api_key] by Runner B only. *)
Record Call := {
  text_or_documents : json;
  prompt_description : json;
  examples : list ExampleData;
  model_id : json;
  extraction_passes : json;
  max_workers : json;
  max_char_buffer : option json;
  api_key : option json
}.

(** An extraction of the library's result. The class and the text are
    strings; an optional attribute that the object lacks, and one that is
    [None], both read as [None] through [getattr(e, name, None)]: the two
    positions are [JNull] then, and the confidence, a float when there is
    one, is [None]. *)
Record Found := {
  found_class : string;
  found_text : string;
  found_attributes : json;
  position_start : json;
  position_end : json;
  confidence : option float
}.

(** The result object: without an [extractions] attribute, or with one
    that is [None] or a list. *)
Inductive Result :=
  | NoExtractionsAttr
  | ExtractionsAttr (l : option (list Found)).

Definition float_or_none (o : option float) : json :=
  match o with Some f => JFloat f | None => JNull end.

(** The dict both runners build for an extraction of the result (Runner A
    lines 268-275, Runner B lines 49-56). *)
Definition extraction_dict (e : Found) : json :=
  JObj [("extraction_class", JStr (found_class e));
        ("extraction_text", JStr (found_text e));
        ("attributes", found_attributes e);
        ("position_start", position_start e);
        ("position_end", position_end e);
        ("confidence", float_or_none (confidence e))].

Definition is_not_none (v : json) : bool :=
  match v with JNull => false | _ => true end.

(** [len(set(e["extraction_class"] for e in extractions))] over such dicts
    (Runner A line 283, Runner B line 59). *)
Definition class_of (ext : json) : res string :=
  c ← getitem ext "extraction_class";
  match c with
  | JStr s => Ok s
  | _ => Raise (TypeError ("unhashable type: '" +:+ type_name c +:+ "'"))
  end.

Definition unique_classes (extractions : list json) : res json :=
  classes ← mapM class_of extractions;
  mret (JInt (Z.of_nat (size (list_to_set classes : gset string)))).

End Lx.

(** ** What a run of a script leaves behind *)

Module Proc.
Import Py.

Record Outcome := {
  usage : option string;                           (* the help text, when [argparse] printed it *)
  stdout : list json;                              (* each [print(json.dumps(v))] *)
  exit_code : Z;
  environ : gmap string string;                    (* [os.environ] at exit *)
  lx_calls : list (Lx.Call * gmap string string)   (* each call, and [os.environ] at the call *)
}.

(** The bytes written to standard output: the help text if [argparse]
    printed it, then one line per printed object. *)
Definition stdout_bytes (float_repr : float → string) (o : Outcome) : string :=
  default "" (usage o)
  +:+ String.concat "" (map (λ v, dumps float_repr v +:+ nl) (stdout o)).

End Proc.

(** ** Runner B: [scripts/langextract_runner.py] *)

Module RunnerB.
Import Py.

(** What [parser.parse_args()] (lines 80-82) makes of the command line. It
    returns when the command line gives [--config] a value and nothing
    else; [-h] or [--help] makes it print the help text to standard output
    and end the process with status 0; any other command line (no
    [--config], no value for it, an argument that is not recognised) makes
    it print to standard error and end the process with status 2. *)
Inductive Args :=
  | Parsed (config : string)
  | HelpExit (help : string)
  | UsageError.

Record World := {
  lx_installed : bool;                       (* [import langextract] succeeds *)
  parse_args : Args;                         (* [parser.parse_args()] *)
  load_config : string → res json;           (* [open(path)] and [json.load] *)
  environ : gmap string string;              (* [os.environ] at start *)
  lx_extract : Lx.Call → gmap string string → res Lx.Result
}.

(** [args.config], when [parse_args()] returns. *)
Definition argv_config (w : World) : option string :=
  match parse_args w with
  | Parsed config => Some config
  | _ => None
  end.

(** Lines 20-25: one [lx.data.Extraction] of an example. *)
Definition example_extraction (ext : json) : res Lx.Extraction :=
  c ← getitem ext "extraction_class";
  t ← getitem ext "extraction_text";
  a ← getitem ext "attributes";
  mret {| Lx.extraction_class := c; Lx.extraction_text := t; Lx.attributes := a |}.

(** Lines 18-29: one [lx.data.ExampleData]. *)
Definition example_data (example : json) : res Lx.ExampleData :=
  exts ← getitem example "extractions";
  items ← iterate exts;
  extractions ← mapM example_extraction items;
  text ← getitem example "text";
  mret {| Lx.text := text; Lx.extractions := extractions |}.

(** Lines 16-29. *)
Definition prepare_examples (config : json) : res (list Lx.ExampleData) :=
  exs ← getitem config "examples";
  items ← iterate exs;
  mapM example_data items.

(** Line 32: the key of the configuration, else of the environment. *)
Definition resolve_api_key (env : gmap string string) (config : json) : res json :=
  k ← get_method config "api_key" JNull;
  mret (or_else (or_else (or_else k (of_option (env !! "LANGEXTRACT_API_KEY")))
                         (of_option (env !! "GEMINI_API_KEY")))
                (of_option (env !! "OPENAI_API_KEY"))).

(** Lines 16-43, up to the call: its arguments, evaluated in order. *)
Definition prepare_call (env : gmap string string) (config : json) : res Lx.Call :=
  examples ← prepare_examples config;
  api_key ← resolve_api_key env config;
  text ← getitem config "text";
  prompt ← getitem config "prompt_description";
  model ← getitem config "model_id";
  passes ← get_method config "extraction_passes" (JInt 1);
  workers ← get_method config "max_workers" (JInt 5);
  mret {| Lx.text_or_documents := text;
          Lx.prompt_description := prompt;
          Lx.examples := examples;
          Lx.model_id := model;
          Lx.extraction_passes := passes;
          Lx.max_workers := workers;
          Lx.max_char_buffer := None;
          Lx.api_key := Some api_key |}.

(** Lines 46-56. *)
Definition process_results (r : Lx.Result) : res (list json) :=
  match r with
  | Lx.NoExtractionsAttr => Ok []
  | Lx.ExtractionsAttr None => Raise (TypeError "'NoneType' object is not iterable")
  | Lx.ExtractionsAttr (Some l) => Ok (map Lx.extraction_dict l)
  end.

(** Line 60:
    [[ext.get("confidence", 1.0) for ext in extractions
       if ext.get("confidence") is not None]] *)
Fixpoint confidences (extractions : list json) : res (list json) :=
  match extractions with
  | [] => Ok []
  | ext :: rest =>
      c ← get_method ext "confidence" JNull;
      if Lx.is_not_none c then
        v ← get_method ext "confidence" (JFloat 1.0);
        vs ← confidences rest;
        mret (v :: vs)
      else confidences rest
  end.

(** Line 61: [sum(confidences) / len(confidences) if confidences else 0.0] *)
Definition avg_confidence (confs : list json) : res json :=
  match confs with
  | [] => Ok (JFloat 0.0)
  | _ => s ← sum confs; truediv s (len_list confs)
  end.

(** Lines 58-71. *)
Definition success_envelope (extractions : list json) : res json :=
  u ← Lx.unique_classes extractions;
  confs ← confidences extractions;
  avg ← avg_confidence confs;
  mret (JObj [("success", JBool true);
              ("extractions", JList extractions);
              ("metadata", JObj [("total_extractions", len_list extractions);
                                 ("unique_classes", u);
                                 ("average_confidence", avg)])]).

(** Lines 73-77, and line 92. *)
Definition error_envelope (e : Exn) : json :=
  JObj [("success", JBool false); ("error", JStr (exn_msg e))].

(** [run_extraction]: the dict it returns, and the library calls made. *)
Definition run_extraction (w : World) (config : json)
  : json * list (Lx.Call * gmap string string) :=
  match prepare_call (environ w) config with
  | Raise e => (error_envelope e, [])
  | Ok call =>
      let calls := [(call, environ w)] in
      let returned :=
        result ← lx_extract w call (environ w);
        extractions ← process_results result;
        success_envelope extractions in
      match returned with
      | Raise e => (error_envelope e, calls)
      | Ok envelope => (envelope, calls)
      end
  end.

Definition import_error : json :=
  JObj [("error", JStr "langextract not installed. Please install with: pip install langextract")].

(** The script: the import at its head (lines 8-12) and the [__main__]
    block (lines 79-92). [parse_args()] stands outside the [try]: when it
    ends the process, nothing else of the block runs. *)
Definition script (w : World) : Proc.Outcome :=
  let finish (out : list json) (code : Z) calls :=
    {| Proc.usage := None; Proc.stdout := out; Proc.exit_code := code;
       Proc.environ := environ w; Proc.lx_calls := calls |} in
  if negb (lx_installed w) then finish [import_error] 1%Z []
  else
    match parse_args w with
    | HelpExit help =>
        {| Proc.usage := Some help; Proc.stdout := []; Proc.exit_code := 0;
           Proc.environ := environ w; Proc.lx_calls := [] |}
    | UsageError => finish [] 2%Z []
    | Parsed path =>
        match load_config w path with
        | Raise e => finish [error_envelope e] 0%Z []
        | Ok config =>
            let '(result, calls) := run_extraction w config in
            finish [result] 0%Z calls
        end
    end.

End RunnerB.

(** ** Runner A: [scripts/enhanced_langextract_runner.py] *)

Module RunnerA.
Import Py.

(** What [requests.get] returned, once [raise_for_status] has passed. *)
Record Response := {
  content_type : string;   (* [headers.get('content-type', '').lower()] *)
  content : string;        (* [response.content] *)
  body_text : string       (* [response.text] *)
}.

(** A workbook as [load_workbook(path, data_only=True)] gives it: its
    sheets in order, each with its name and its rows of cell values. A cell
    is [None] or a value, held as its [str(cell)]. *)
Definition Workbook : Type := list (string * list (list (option string))).

(** The optional parsers are [None] when their import failed (lines
    21-43). Each parser stands for the whole loop that reads the document:
    the text of every page, paragraph or shape, or the exception raised on
    the way. *)
Record World := {
  stdin : res json;                        (* [json.loads(sys.stdin.read())] *)
  environ : gmap string string;            (* [os.environ] at start *)
  time_start : float;                      (* [time.time()] at line 155 *)
  time_end : float;                        (* [time.time()] at line 185 or 250 *)
  guess_type : string → option string;     (* [mimetypes.guess_type(p)[0]] *)
  suffix_lower : string → string;          (* [Path(p).suffix.lower()] *)
  path_exists : json → res bool;           (* [os.path.exists(v)] *)
  read_text : string → res string;         (* [open(p, 'r', encoding='utf-8', errors='ignore').read()] *)
  pdfplumber : option (string → res (list (option string)));
                                           (* [page.extract_text()] of each page *)
  pdf_of_bytes : string → res (list (option string));
                                           (* the same, of a file holding these bytes *)
  docx : option (string → res (list string));
                                           (* [paragraph.text] of each paragraph *)
  openpyxl : option (string → res Workbook);
  pptx : option (string → res (list (list (option string))));
                                           (* per slide, each shape's [text] if it has one *)
  html_get_text : string → res string;     (* [BeautifulSoup(s, 'html.parser').get_text(separator='\n', strip=True)] *)
  json_reindent : string → res string;     (* [json.dumps(json.load(open(p)), indent=2)] *)
  requests_get : string → res Response;    (* lines 129-130 *)
  tmp_pdf : string;                        (* the name of the temporary file of line 142 *)
  lx_import : option string;               (* the message of the [ImportError] of line 213, if any *)
  lx_extract : Lx.Call → gmap string string → res Lx.Result;
  tmp_jsonl : res string;                  (* the name of the temporary file of line 289 *)
  format_exc : Exn → string                (* [traceback.format_exc()] *)
}.

(** [m and needle in m] for an optional string [m]. *)
Definition mentions (needle : string) (m : option string) : bool :=
  match m with Some m => nonempty m && contains needle m | None => false end.

Definition ext_in (ext : string) (l : list string) : bool :=
  existsb (String.eqb ext) l.

(** [ext in l and module] *)
Definition when_ext {A} (ext : string) (l : list string) (module : option A) : option A :=
  if ext_in ext l then module else None.

(** Lines 62-68. *)
Definition pdf_text (pages : list (option string)) : string :=
  strip (fold_left (λ text page,
                      match page with
                      | Some page_text =>
                          if nonempty page_text then text +:+ page_text +:+ nl else text
                      | None => text
                      end) pages "").

(** Lines 86-88: one row of a sheet. *)
Definition cell_text (cell : option string) : string := default "" cell.

Definition add_row (text : list string) (row : list (option string)) : list string :=
  let row_text := map cell_text row in
  if existsb nonempty row_text then text ++ [join tab row_text] else text.

(** Lines 82-88: one sheet. *)
Definition add_sheet (text : list string) (sheet : string * list (list (option string)))
  : list string :=
  fold_left add_row (snd sheet) (text ++ ["Sheet: " +:+ fst sheet]).

(** Lines 81-89. *)
Definition workbook_text (workbook : Workbook) : string :=
  join nl (fold_left add_sheet workbook []).

(** Lines 94-100. *)
Definition add_slide (acc : Z * list string) (shapes : list (option string))
  : Z * list string :=
  let '(slide_num, text) := acc in
  ((slide_num + 1)%Z,
   fold_left (λ text shape, match shape with Some t => text ++ [t] | None => text end)
             shapes (text ++ ["Slide " +:+ int_repr slide_num +:+ ":"])).

Definition slides_text (slides : list (list (option string))) : string :=
  join nl (snd (fold_left add_slide slides (1%Z, []))).

(** [extract_text_from_file], lines 47-120. *)
Definition extract_text_from_file (w : World) (file_path : string)
    (mime_type : option string) : res string :=
  let mime_type :=
    match mime_type with
    | Some m => if nonempty m then Some m else guess_type w file_path
    | None => guess_type w file_path
    end in
  let file_ext := suffix_lower w file_path in
  reraise ("Failed to extract text from " +:+ file_ext +:+ " file: ")
    (if mentions "text" mime_type || ext_in file_ext [".txt"; ".md"; ".csv"] then
       read_text w file_path
     else match when_ext file_ext [".pdf"] (pdfplumber w) with
     | Some pdf_open => pages ← pdf_open file_path; mret (pdf_text pages)
     | None =>
     match when_ext file_ext [".docx"; ".doc"] (docx w) with
     | Some document => paragraphs ← document file_path; mret (join nl paragraphs)
     | None =>
     match when_ext file_ext [".xlsx"; ".xls"] (openpyxl w) with
     | Some load_workbook => workbook ← load_workbook file_path; mret (workbook_text workbook)
     | None =>
     match when_ext file_ext [".pptx"; ".ppt"] (pptx w) with
     | Some presentation => slides ← presentation file_path; mret (slides_text slides)
     | None =>
     if ext_in file_ext [".html"; ".htm"] || mentions "html" mime_type then
       source ← read_text w file_path; html_get_text w source
     else if String.eqb file_ext ".json" then json_reindent w file_path
     else read_text w file_path
     end end end end).

(** The world once line 143 has written [body] to the temporary file
    [tmp_pdf w], whose name ends in the suffix [.pdf] it was asked for. *)
Definition with_tmp_pdf (w : World) (body : string) : World :=
  {| stdin := stdin w; environ := environ w;
     time_start := time_start w; time_end := time_end w;
     guess_type := guess_type w;
     suffix_lower := λ p, if String.eqb p (tmp_pdf w) then ".pdf" else suffix_lower w p;
     path_exists := path_exists w;
     read_text := read_text w;
     pdfplumber :=
       (λ pdf_open p, if String.eqb p (tmp_pdf w) then pdf_of_bytes w body else pdf_open p)
         <$> pdfplumber w;
     pdf_of_bytes := pdf_of_bytes w;
     docx := docx w; openpyxl := openpyxl w; pptx := pptx w;
     html_get_text := html_get_text w; json_reindent := json_reindent w;
     requests_get := requests_get w; tmp_pdf := tmp_pdf w;
     lx_import := lx_import w; lx_extract := lx_extract w;
     tmp_jsonl := tmp_jsonl w; format_exc := format_exc w |}.

(** [download_and_extract_from_url], lines 122-151. *)
Definition download_and_extract_from_url (w : World) (url : string) : res string :=
  reraise "Failed to download or extract text from URL: "
    (response ← requests_get w url;
     let content_type := content_type response in
     if contains "text/html" content_type then html_get_text w (content response)
     else if contains "text/" content_type then Ok (body_text response)
     else if contains "application/pdf" content_type
             && bool_decide (is_Some (pdfplumber w)) then
       extract_text_from_file (with_tmp_pdf w (content response)) (tmp_pdf w)
                              (Some "application/pdf")
     else Ok (body_text response)).

Definition required_fields : list string :=
  ["inputText"; "promptDescription"; "examples"; "modelId"].

(** Lines 164-166. *)
Fixpoint validate (config : json) (fields : list string) : res unit :=
  match fields with
  | [] => Ok tt
  | field :: rest =>
      present ← has_item config field;
      if present : bool then validate config rest
      else Raise (ValueError ("Missing required field: " +:+ field))
  end.

(** Lines 185 and 250: [(time.time() - start_time) * 1000]. *)
Definition processing_time (w : World) : json :=
  JFloat (PrimFloat.mul (PrimFloat.sub (time_end w) (time_start w)) 1000%float).

(** Lines 180-187. *)
Definition text_only_output (w : World) (input_text : string) : json :=
  JObj [("success", JBool true);
        ("extractedText", JStr input_text);
        ("metadata", JObj [("inputLength", len input_text);
                           ("processingTime", processing_time w)])].

(** How lines 168-201 end: by the [return] of line 189, after printing
    [output], or by going on with [input_text]. *)
Inductive Resolved :=
  | Returned (output : json)
  | Proceed (input_text : string).

Definition sentinel : string := "Extract text content".

(** Lines 173-192, the body of the [try] and its handler. *)
Definition from_file (w : World) (config file_path : json) : res Resolved :=
  reraise "File processing failed: "
    (path ← fspath file_path;
     input_text ← extract_text_from_file w path None;
     if nonempty (strip input_text) then
       prompt ← getitem config "promptDescription";
       if is_str sentinel prompt then mret (Returned (text_only_output w input_text))
       else mret (Proceed input_text)
     else Raise (ValueError "No text could be extracted from the file")).

(** Lines 195-201. *)
Definition from_text (w : World) (input_text : json) : res Resolved :=
  match input_text with
  | JStr s =>
      if startswith s "http://" || startswith s "https://" then
        reraise "URL processing failed: "
          (text ← download_and_extract_from_url w s;
           if nonempty (strip text) then mret (Proceed text)
           else Raise (ValueError "No text could be extracted from the URL"))
      else Ok (Proceed s)
  | _ => Raise (AttributeError ("'" +:+ type_name input_text
                                +:+ "' object has no attribute 'startswith'"))
  end.

(** Lines 168-201. *)
Definition resolve_input (w : World) (config : json) : res Resolved :=
  input_text ← getitem config "inputText";
  file_path ← get_method config "filePath" JNull;
  is_file ← (if truthy file_path then path_exists w file_path else Ok false);
  if is_file : bool then from_file w config file_path else from_text w input_text.

(** Lines 204-206. *)
Definition resolve_api_key (env : gmap string string) (config : json) : res json :=
  k ← get_method config "apiKey" JNull;
  let api_key := or_else k (of_option (env !! "GEMINI_API_KEY")) in
  if truthy api_key then Ok api_key
  else Raise (ValueError "No API key provided. Set GEMINI_API_KEY environment variable.").

(** Line 209: [os.environ['GEMINI_API_KEY'] = api_key]. The value is
    encoded first, which wants a [str]; [putenv] then refuses a value that
    holds a NUL, and [os.environ] is written only after [putenv]. *)
Definition set_api_key (env : gmap string string) (api_key : json)
  : res (gmap string string) :=
  match api_key with
  | JStr s =>
      if has_nul s then Raise (ValueError "embedded null byte")
      else Ok (<["GEMINI_API_KEY" := s]> env)
  | _ => Raise (TypeError ("str expected, not " +:+ type_name api_key))
  end.

(** Lines 212-215. *)
Definition import_langextract (w : World) : res unit :=
  match lx_import w with
  | None => Ok tt
  | Some msg => Raise (ValueError ("LangExtract library not available: " +:+ msg))
  end.

(** Lines 222-226. *)
Definition example_extraction (extraction_data : json) : res Lx.Extraction :=
  c ← getitem extraction_data "extraction_class";
  t ← getitem extraction_data "extraction_text";
  a ← get_method extraction_data "attributes" (JObj []);
  mret {| Lx.extraction_class := c; Lx.extraction_text := t; Lx.attributes := a |}.

(** Lines 220-233. *)
Definition example_data (example : json) : res Lx.ExampleData :=
  exts ← getitem example "extractions";
  items ← iterate exts;
  extractions ← mapM example_extraction items;
  text ← getitem example "text";
  mret {| Lx.text := text; Lx.extractions := extractions |}.

(** Lines 218-233. *)
Definition prepare_examples (config : json) : res (list Lx.ExampleData) :=
  exs ← getitem config "examples";
  items ← iterate exs;
  mapM example_data items.

(** Lines 237-245: the arguments of the call, evaluated in order. *)
Definition call_arguments (config : json) (input_text : string)
    (examples : list Lx.ExampleData) : res Lx.Call :=
  prompt ← getitem config "promptDescription";
  model ← getitem config "modelId";
  passes ← get_method config "extractionPasses" (JInt 1);
  workers ← get_method config "maxWorkers" (JInt 5);
  buffer ← get_method config "maxCharBuffer" (JInt 10000);
  mret {| Lx.text_or_documents := JStr input_text;
          Lx.prompt_description := prompt;
          Lx.examples := examples;
          Lx.model_id := model;
          Lx.extraction_passes := passes;
          Lx.max_workers := workers;
          Lx.max_char_buffer := Some buffer;
          Lx.api_key := None |}.

(** Lines 265-267: the extractions the loop goes through. *)
Definition found (result : Lx.Result) : list Lx.Found :=
  match result with
  | Lx.ExtractionsAttr (Some l) => l
  | _ => []
  end.

(** Lines 266-279: the loop, from [(output['extractions'], confidences)]
    before an extraction to the pair after it. *)
Definition collect (acc : list json * list json) (extraction : Lx.Found)
  : list json * list json :=
  let extraction_dict := Lx.extraction_dict extraction in
  (* [extraction_dict['confidence']], the value just stored under that key *)
  let confidence := Lx.float_or_none (Lx.confidence extraction) in
  (fst acc ++ [extraction_dict],
   if Lx.is_not_none confidence then snd acc ++ [confidence] else snd acc).

(** Lines 253-285: [output] before the visualization file is added. *)
Definition normalize (w : World) (input_text : string) (result : Lx.Result)
  : res (list (string * json)) :=
  let '(extractions, confidences) := fold_left collect (found result) ([], []) in
  let output total unique average :=
    [("success", JBool true);
     ("extractions", JList extractions);
     ("metadata", JObj [("totalExtractions", total);
                        ("uniqueClasses", unique);
                        ("processingTime", processing_time w);
                        ("inputLength", len input_text);
                        ("averageConfidence", average)])] in
  match found result with
  | [] => Ok (output (JInt 0) (JInt 0) (JInt 0))
  | _ =>
      unique ← Lx.unique_classes extractions;
      average ← match confidences with
                | [] => Ok (JInt 0)
                | _ => s ← sum confidences; truediv s (len_list confidences)
                end;
      mret (output (len_list extractions) unique average)
  end.

(** Lines 288-294. *)
Definition save_visualization (w : World) (output : list (string * json))
  : res json :=
  if truthy (default JNull (lookup_field "extractions" output)) then
    name ← tmp_jsonl w;
    mret (JObj (output ++ [("visualization_file", JStr name)]))
  else Ok (JObj output).

(** What the [try] of [main] came to: the object to print or the exception
    caught at line 298, [os.environ] then, and the library calls made. *)
Record Run := {
  result : res json;
  env_after : gmap string string;
  calls : list (Lx.Call * gmap string string)
}.

(** Lines 162-296. *)
Definition run (w : World) (config : json) : Run :=
  let env := environ w in
  match validate config required_fields ≫= (λ _, resolve_input w config) with
  | Raise e => {| result := Raise e; env_after := env; calls := [] |}
  | Ok (Returned output) => {| result := Ok output; env_after := env; calls := [] |}
  | Ok (Proceed input_text) =>
      match resolve_api_key env config with
      | Raise e => {| result := Raise e; env_after := env; calls := [] |}
      | Ok api_key =>
          match set_api_key env api_key with
          | Raise e => {| result := Raise e; env_after := env; calls := [] |}
          | Ok env' =>
              let arguments :=
                _ ← import_langextract w;
                examples ← prepare_examples config;
                reraise "LangExtract processing failed: "
                        (call_arguments config input_text examples) in
              match arguments with
              | Raise e => {| result := Raise e; env_after := env'; calls := [] |}
              | Ok call =>
                  {| result :=
                       result ← reraise "LangExtract processing failed: "
                                        (lx_extract w call env');
                       output ← normalize w input_text result;
                       save_visualization w output;
                     env_after := env';
                     calls := [(call, env')] |}
              end
          end
      end
  end.

(** Lines 299-304. *)
Definition error_output (w : World) (e : Exn) : json :=
  JObj [("success", JBool false);
        ("error", JStr (exn_msg e));
        ("type", JStr (exn_type e));
        ("traceback", JStr (format_exc w e))].

(** [main]: the object printed, the exit status (1 by [sys.exit(1)] at
    line 306, 0 otherwise), and the effects of the run. *)
Definition main (w : World) : Proc.Outcome :=
  match stdin w with
  | Raise e =>
      {| Proc.usage := None; Proc.stdout := [error_output w e]; Proc.exit_code := 1;
         Proc.environ := environ w; Proc.lx_calls := [] |}
  | Ok config =>
      let r := run w config in
      match result r with
      | Ok output =>
          {| Proc.usage := None; Proc.stdout := [output]; Proc.exit_code := 0;
             Proc.environ := env_after r; Proc.lx_calls := calls r |}
      | Raise e =>
          {| Proc.usage := None; Proc.stdout := [error_output w e]; Proc.exit_code := 1;
             Proc.environ := env_after r; Proc.lx_calls := calls r |}
      end
  end.

End RunnerA.

(** ** The words of the specification *)

Module Spec.
Import Py.

(** A field of the [metadata] object of an envelope. *)
Definition metadata (output : list (string * json)) (k : string) : option json :=
  match lookup_field "metadata" output with
  | Some (JObj ms) => lookup_field k ms
  | _ => None
  end.

(** The confidences that extractions report. *)
Definition reported (l : list Lx.Found) : list float := omap Lx.confidence l.

(** "Average confidence across extractions that report one, defaulting to
    [zero] when none do." *)
Definition average_of_reported (zero : json) (l : list Lx.Found) : json :=
  match reported l with
  | [] => zero
  | fs => JFloat (float_mean fs)
  end.

(** "A default confidence of 1.0 substituted for missing values before
    averaging." *)
Definition average_with_default (l : list Lx.Found) : json :=
  JFloat (float_mean (map (λ e, default 1.0%float (Lx.confidence e)) l)).

Definition distinct_classes (l : list Lx.Found) : json :=
  JInt (Z.of_nat (size (list_to_set (map Lx.found_class l) : gset string))).





(** An envelope with the value of a field replaced by [null]. *)
Fixpoint blank_field (k : string) (fs : list (string * json)) : list (string * json) :=
  match fs with
  | [] => []
  | (k', v) :: fs' =>
      if String.eqb k k' then (k', JNull) :: fs' else (k', v) :: blank_field k fs'
  end.

(** An envelope without its elapsed time. *)
Definition without_time (v : json) : json :=
  match v with
  | JObj fs =>
      match lookup_field "metadata" fs with
      | Some (JObj ms) =>
          JObj (map (λ kv, if String.eqb (fst kv) "metadata"
                           then (fst kv, JObj (blank_field "processingTime" ms))
                           else kv) fs)
      | _ => v
      end
  | _ => v
  end.

(** An envelope without the name of its visualization file. *)
Definition without_visualization (v : json) : json :=
  match v with
  | JObj fs => JObj (blank_field "visualization_file" fs)
  | _ => v
  end.

(** Two invocations of Runner A on the same request: the same standard
    input, environment, files, network and library. Only what the system
    picks anew for every process may differ: the two readings of the clock
    and the names of the temporary files. *)
Record same_request (w1 w2 : RunnerA.World) : Prop := {
  same_stdin : RunnerA.stdin w1 = RunnerA.stdin w2;
  same_environ : RunnerA.environ w1 = RunnerA.environ w2;
  same_guess_type : RunnerA.guess_type w1 = RunnerA.guess_type w2;
  same_suffix_lower : RunnerA.suffix_lower w1 = RunnerA.suffix_lower w2;
  same_path_exists : RunnerA.path_exists w1 = RunnerA.path_exists w2;
  same_read_text : RunnerA.read_text w1 = RunnerA.read_text w2;
  same_pdfplumber : RunnerA.pdfplumber w1 = RunnerA.pdfplumber w2;
  same_pdf_of_bytes : RunnerA.pdf_of_bytes w1 = RunnerA.pdf_of_bytes w2;
  same_docx : RunnerA.docx w1 = RunnerA.docx w2;
  same_openpyxl : RunnerA.openpyxl w1 = RunnerA.openpyxl w2;
  same_pptx : RunnerA.pptx w1 = RunnerA.pptx w2;
  same_html_get_text : RunnerA.html_get_text w1 = RunnerA.html_get_text w2;
  same_json_reindent : RunnerA.json_reindent w1 = RunnerA.json_reindent w2;
  same_requests_get : RunnerA.requests_get w1 = RunnerA.requests_get w2;
  same_lx_import : RunnerA.lx_import w1 = RunnerA.lx_import w2;
  same_lx_extract : RunnerA.lx_extract w1 = RunnerA.lx_extract w2;
  same_format_exc : RunnerA.format_exc w1 = RunnerA.format_exc w2;
  same_tmp_jsonl :
    RunnerA.tmp_jsonl w1 = RunnerA.tmp_jsonl w2
    ∨ ∃ n1 n2, RunnerA.tmp_jsonl w1 = Ok n1 ∧ RunnerA.tmp_jsonl w2 = Ok n2
}.

(** Two invocations of Runner B on the same request. The script reads no
    clock and makes no temporary file. *)
Record same_request_b (w1 w2 : RunnerB.World) : Prop := {
  same_lx_installed_b : RunnerB.lx_installed w1 = RunnerB.lx_installed w2;
  same_parse_args_b : RunnerB.parse_args w1 = RunnerB.parse_args w2;
  same_load_config_b : RunnerB.load_config w1 = RunnerB.load_config w2;
  same_environ_b : RunnerB.environ w1 = RunnerB.environ w2;
  same_lx_extract_b : RunnerB.lx_extract w1 = RunnerB.lx_extract w2
}.

(** The bytes of standard output, each printed envelope seen through
    [view]. *)
Definition printed (float_repr : float → string) (view : json → json)
    (o : Proc.Outcome) : list string :=
  map (λ v, dumps float_repr (view v)) (Proc.stdout o).

(** An envelope without what the system picks anew for every process. *)
Definition stable_view (v : json) : json :=
  without_visualization (without_time v).

(** What [main] prints for the outcome of its [try], seen through
    [stable_view], and the status it exits with. *)
Definition seen (float_repr : float → string) (w : RunnerA.World) (r : res json)
  : list string * Z :=
  match r with
  | Ok output => ([dumps float_repr (stable_view output)], 0%Z)
  | Raise e => ([dumps float_repr (stable_view (RunnerA.error_output w e))], 1%Z)
  end.

(** A value of the environment holds the key. *)
Definition holds_key (env : gmap string string) (key : string) : Prop :=
  ∃ var, env !! var = Some key.

(** The failures of Runner B once the library is imported: reading the
    configuration file, translating the examples, calling the library. *)
Inductive failure_b (w : RunnerB.World) (path : string) : Exn → Prop :=
  | config_read_failure e :
      RunnerB.load_config w path = Raise e → failure_b w path e
  | example_translation_failure config e :
      RunnerB.load_config w path = Ok config →
      RunnerB.prepare_examples config = Raise e → failure_b w path e
  | library_invocation_failure config call e :
      RunnerB.load_config w path = Ok config →
      RunnerB.prepare_call (RunnerB.environ w) config = Ok call →
      RunnerB.lx_extract w call (RunnerB.environ w) = Raise e → failure_b w path e.

(** *** Words about whole runs and about the handlers *)

(** The outcome of a run of Runner A that ends in the handler of line 298
    with the exception [e]. *)
Definition failed (w : RunnerA.World) (e : Exn) (env : gmap string string)
    (calls : list (Lx.Call * gmap string string)) : Proc.Outcome :=
  {| Proc.usage := None; Proc.stdout := [RunnerA.error_output w e]; Proc.exit_code := 1;
     Proc.environ := env; Proc.lx_calls := calls |}.

(** The pages of a PDF that have text, each followed by a newline. *)
Definition page_lines (pages : list (option string)) : list string :=
  map (λ t, t +:+ nl) (filter (λ t, nonempty t) (omap id pages)).

(** A page without text: [extract_text()] gave [None] or [""]. *)
Definition textless (page : option string) : Prop :=
  page = None ∨ page = Some "".

(** The lines of the slide at index [i], counted from 0: a header with the
    1-based number of the slide, then the text of each shape that has a
    [text] attribute. *)
Definition slide_lines (i : nat) (shapes : list (option string)) : list string :=
  ("Slide " +:+ int_repr (Z.of_nat (S i)) +:+ ":") :: omap id shapes.

(** The extension is one of a document format whose parser could not be
    imported. *)
Definition parser_absent (w : RunnerA.World) (ext : string) : Prop :=
  (ext = ".pdf" ∧ RunnerA.pdfplumber w = None)
  ∨ ((ext = ".docx" ∨ ext = ".doc") ∧ RunnerA.docx w = None)
  ∨ ((ext = ".xlsx" ∨ ext = ".xls") ∧ RunnerA.openpyxl w = None)
  ∨ ((ext = ".pptx" ∨ ext = ".ppt") ∧ RunnerA.pptx w = None).

(** [v1 or v2 or ... or vn]: the first value that is true, or the last
    one. *)
Fixpoint first_true (candidates : list json) : json :=
  match candidates with
  | [] => JNull
  | [v] => v
  | v :: rest => if truthy v then v else first_true rest
  end.

(** The environment once line 209 has written [key]. *)
Definition keyed (w : RunnerA.World) (key : string) : gmap string string :=
  <["GEMINI_API_KEY" := key]> (RunnerA.environ w).

(** A run of Runner A that gets as far as calling the library: the request
    is decoded and has its required keys, the input resolves to
    [input_text], a key is found, the library is imported, and the examples
    and the other arguments make up [call]. *)
Record reaches_library (w : RunnerA.World) (config : json) (input_text key : string)
    (call : Lx.Call) : Prop := {
  reaches_stdin : RunnerA.stdin w = Ok config;
  reaches_validate : RunnerA.validate config RunnerA.required_fields = Ok tt;
  reaches_input : RunnerA.resolve_input w config = Ok (RunnerA.Proceed input_text);
  reaches_key : RunnerA.resolve_api_key (RunnerA.environ w) config = Ok (JStr key);
  reaches_written : has_nul key = false;
  reaches_import : RunnerA.lx_import w = None;
  reaches_call :
    RunnerA.prepare_examples config
    ≫= (λ examples, RunnerA.call_arguments config input_text examples) = Ok call
}.

(** [inputText] "starts with [http://] or [https://]". *)
Definition is_url (s : string) : bool :=
  startswith s "http://" || startswith s "https://".

(** The text of what a URL answered, by its content type: the text of the
    parsed markup for HTML; the body for any other text type; for a PDF the
    text of its pages when [pdfplumber] is there; the body otherwise. *)
Definition response_text (w : RunnerA.World) (r : RunnerA.Response) : res string :=
  if contains "text/html" (RunnerA.content_type r) then
    RunnerA.html_get_text w (RunnerA.content r)
  else if contains "text/" (RunnerA.content_type r) then Ok (RunnerA.body_text r)
  else if contains "application/pdf" (RunnerA.content_type r) then
    match RunnerA.pdfplumber w with
    | Some _ =>
        reraise "Failed to extract text from .pdf file: "
          (RunnerA.pdf_of_bytes w (RunnerA.content r)
           ≫= λ pages, Ok (RunnerA.pdf_text pages))
    | None => Ok (RunnerA.body_text r)
    end
  else Ok (RunnerA.body_text r).

(** "Fetching [inputText] as a URL": the request is made and the text of
    the answer is taken. *)
Definition fetched (w : RunnerA.World) (url : string) : res string :=
  reraise "Failed to download or extract text from URL: "
    (RunnerA.requests_get w url ≫= response_text w).

(** The input of a request when no file stands in the way: the text
    fetched from [inputText] when it is a URL, which must not be blank, and
    [inputText] itself, unchanged, when it is not. *)
Definition input_without_file (w : RunnerA.World) (s : string) : res string :=
  if is_url s then
    reraise "URL processing failed: "
      (fetched w s ≫= λ text,
         if nonempty (strip text) then Ok text
         else Raise (ValueError "No text could be extracted from the URL"))
  else Ok s.


End Spec.

(** ** Concrete worlds *)

Module Examples.
Import Py.

Definition found_at (class : string) (conf : option float) : Lx.Found :=
  {| Lx.found_class := class; Lx.found_text := "span";
     Lx.found_attributes := JObj []; Lx.position_start := JNull;
     Lx.position_end := JNull; Lx.confidence := conf |}.

(** Classes A, A, B with confidences 0.5, 0.7 and none. *)
Definition three : list Lx.Found :=
  [found_at "A" (Some 0.5%float); found_at "A" (Some 0.7%float); found_at "B" None].

(** A file of the file system: its path, what [Path(p).suffix.lower()] and
    [mimetypes.guess_type(p)[0]] give for it, and its text. *)
Record File := {
  path : string;
  ext : string;
  mime : option string;
  body : string
}.

Fixpoint find_file (p : string) (files : list File) : option File :=
  match files with
  | [] => None
  | f :: rest => if String.eqb p (path f) then Some f else find_file p rest
  end.

Definition page_html : File :=
  {| path := "page.html"; ext := ".html"; mime := Some "text/html";
     body := "<p>Hello</p>" |}.

Definition blank_txt : File :=
  {| path := "blank.txt"; ext := ".txt"; mime := Some "text/plain"; body := " " |}.

Definition notes_txt : File :=
  {| path := "notes.txt"; ext := ".txt"; mime := Some "text/plain";
     body := "Ada met Bob." |}.


(** Sheet "Sheet1" with the rows ["a","b"] and ["",""]. *)
Definition sheet1 : RunnerA.Workbook :=
  [("Sheet1", [[Some "a"; Some "b"]; [Some ""; Some ""]])].

Definition no_such_file (p : string) : Exn :=
  mkExn "FileNotFoundError" ("[Errno 2] No such file or directory: '" +:+ p +:+ "'").

(** A world of Runner A: a request on standard input, an environment, a
    few files, an installed library that answers every call with [answer],
    a clock that reads [now] at the end, and [viz] as the name of the
    temporary visualization file. *)
Definition world_a (config : json) (env : gmap string string) (files : list File)
    (answer : res Lx.Result) (now : float) (viz : string) : RunnerA.World :=
  let read p := match find_file p files with
                | Some f => Ok (body f)
                | None => Raise (no_such_file p)
                end in
  {| RunnerA.stdin := Ok config;
     RunnerA.environ := env;
     RunnerA.time_start := 1000%float;
     RunnerA.time_end := now;
     RunnerA.guess_type := λ p, find_file p files ≫= mime;
     RunnerA.suffix_lower := λ p, from_option ext "" (find_file p files);
     RunnerA.path_exists :=
       λ v, match v with
            | JStr p => Ok (bool_decide (is_Some (find_file p files)))
            | _ => Ok false
            end;
     RunnerA.read_text := read;
     RunnerA.pdfplumber := Some (λ p, Raise (no_such_file p));
     RunnerA.pdf_of_bytes := λ _, Ok [];
     RunnerA.docx := Some (λ p, Raise (no_such_file p));
     RunnerA.openpyxl :=
       Some (λ p, if String.eqb p "book.xlsx" then Ok sheet1 else Raise (no_such_file p));
     RunnerA.pptx := Some (λ p, Raise (no_such_file p));
     RunnerA.html_get_text :=
       λ s, if String.eqb s "<p>Hello</p>" then Ok "Hello" else Ok s;
     RunnerA.json_reindent := λ p, Raise (no_such_file p);
     RunnerA.requests_get :=
       λ url, Raise (mkExn "ConnectionError" ("cannot reach " +:+ url));
     RunnerA.tmp_pdf := "/tmp/tmp0.pdf";
     RunnerA.lx_import := None;
     RunnerA.lx_extract := λ _ _, answer;
     RunnerA.tmp_jsonl := Ok viz;
     RunnerA.format_exc := λ e, "Traceback (most recent call last): " +:+ exn_type e |}.

Definition config_a (input prompt : string) (more : list (string * json)) : json :=
  JObj ([("inputText", JStr input); ("promptDescription", JStr prompt);
         ("examples", JList []); ("modelId", JStr "gemini-2.5-flash")] ++ more).

Definition one_found : res Lx.Result :=
  Ok (Lx.ExtractionsAttr (Some [found_at "A" (Some 0.5%float)])).

(** Two invocations on one request, told apart by the name of the
    visualization file alone. *)
Definition first_run : RunnerA.World :=
  world_a (config_a "Ada met Bob." "Find people" [("apiKey", JStr "secret")]) ∅ []
          one_found 1002%float "/tmp/tmpa1.jsonl".

Definition second_run : RunnerA.World :=
  world_a (config_a "Ada met Bob." "Find people" [("apiKey", JStr "secret")]) ∅ []
          one_found 1002%float "/tmp/tmpb2.jsonl".

(** A text-only request on a file that holds one space. *)
Definition blank_file_run : RunnerA.World :=
  world_a (config_a "" RunnerA.sentinel [("filePath", JStr "blank.txt")]) ∅ [blank_txt]
          one_found 1002%float "/tmp/tmpa1.jsonl".

(** A text-only request on a file with text. *)
Definition notes_run : RunnerA.World :=
  world_a (config_a "" RunnerA.sentinel [("filePath", JStr "notes.txt")]) ∅ [notes_txt]
          one_found 1002%float "/tmp/tmpa1.jsonl".

(** A request on an HTML file. *)
Definition html_run : RunnerA.World :=
  world_a (config_a "" "Find people"
                    [("filePath", JStr "page.html"); ("apiKey", JStr "secret")])
          ∅ [page_html] one_found 1002%float "/tmp/tmpa1.jsonl".


(** A request that names a file that does not exist. *)
Definition missing_file_run : RunnerA.World :=
  world_a (config_a "Ada met Bob." "Find people"
                    [("filePath", JStr "gone.txt"); ("apiKey", JStr "secret")]) ∅ []
          one_found 1002%float "/tmp/tmpa1.jsonl".

(** A request without [modelId]. *)
Definition no_model_run : RunnerA.World :=
  world_a (JObj [("inputText", JStr "Ada met Bob.");
                 ("promptDescription", JStr "Find people"); ("examples", JList [])])
          ∅ [] one_found 1002%float "/tmp/tmpa1.jsonl".

Definition config_b (more : list (string * json)) : json :=
  JObj ([("text", JStr "Ada met Bob."); ("prompt_description", JStr "Find people");
         ("examples", JList []); ("model_id", JStr "gemini-2.5-flash")] ++ more).

(** A world of Runner B: the library is installed, [--config cfg.json]
    names a file that decodes to [config] when there is one. *)
Definition world_b (config : res json) (env : gmap string string)
    (answer : res Lx.Result) : RunnerB.World :=
  {| RunnerB.lx_installed := true;
     RunnerB.parse_args := RunnerB.Parsed "cfg.json";
     RunnerB.load_config := λ _, config;
     RunnerB.environ := env;
     RunnerB.lx_extract := λ _ _, answer |}.

(** The caller gives the key in the configuration; the environment is
    empty. *)
Definition keyed_run_b : RunnerB.World :=
  world_b (Ok (config_b [("api_key", JStr "secret")])) ∅ one_found.

(** The library finds [three]. *)
Definition three_run_b : RunnerB.World :=
  world_b (Ok (config_b [])) ∅ (Ok (Lx.ExtractionsAttr (Some three))).

(** The library fails. *)
Definition failing_run_b : RunnerB.World :=
  world_b (Ok (config_b [])) ∅ (Raise (mkExn "RuntimeError" "model unavailable")).

(** A world of Runner A like [world_a], with the PDF reader, the import of
    the library, the network and the visualization file given as well. *)
Definition world_a_with (config : json) (env : gmap string string) (files : list File)
    (pdf : option (string → res (list (option string))))
    (pdf_bytes : string → res (list (option string)))
    (import : option string)
    (get : string → res RunnerA.Response)
    (answer : res Lx.Result) (viz : res string) : RunnerA.World :=
  let w := world_a config env files answer 1002%float "" in
  {| RunnerA.stdin := RunnerA.stdin w; RunnerA.environ := RunnerA.environ w;
     RunnerA.time_start := RunnerA.time_start w; RunnerA.time_end := RunnerA.time_end w;
     RunnerA.guess_type := RunnerA.guess_type w;
     RunnerA.suffix_lower := RunnerA.suffix_lower w;
     RunnerA.path_exists := RunnerA.path_exists w;
     RunnerA.read_text := RunnerA.read_text w;
     RunnerA.pdfplumber := pdf;
     RunnerA.pdf_of_bytes := pdf_bytes;
     RunnerA.docx := RunnerA.docx w; RunnerA.openpyxl := RunnerA.openpyxl w;
     RunnerA.pptx := RunnerA.pptx w;
     RunnerA.html_get_text := RunnerA.html_get_text w;
     RunnerA.json_reindent := RunnerA.json_reindent w;
     RunnerA.requests_get := get;
     RunnerA.tmp_pdf := RunnerA.tmp_pdf w;
     RunnerA.lx_import := import;
     RunnerA.lx_extract := RunnerA.lx_extract w;
     RunnerA.tmp_jsonl := viz;
     RunnerA.format_exc := RunnerA.format_exc w |}.

Definition unreachable (url : string) : res RunnerA.Response :=
  Raise (mkExn "ConnectionError" ("cannot reach " +:+ url)).

Definition scan_pdf : File :=
  {| path := "scan.pdf"; ext := ".pdf"; mime := Some "application/pdf"; body := "%PDF" |}.

(** A request on a PDF whose two pages have no text layer. *)
Definition scan_run : RunnerA.World :=
  world_a_with (config_a "" "Find people"
                         [("filePath", JStr "scan.pdf"); ("apiKey", JStr "secret")])
               ∅ [scan_pdf] (Some (λ _, Ok [None; Some ""])) (λ _, Ok [])
               None unreachable one_found (Ok "/tmp/tmpa1.jsonl").

(** The same request where [pdfplumber] is not installed. *)
Definition no_pdfplumber_run : RunnerA.World :=
  world_a_with (config_a "" "Find people"
                         [("filePath", JStr "scan.pdf"); ("apiKey", JStr "secret")])
               ∅ [scan_pdf] None (λ _, Ok [])
               None unreachable one_found (Ok "/tmp/tmpa1.jsonl").

(** A request on a PDF that the reader rejects. *)
Definition broken_pdf_run : RunnerA.World :=
  world_a_with (config_a "" "Find people"
                         [("filePath", JStr "scan.pdf"); ("apiKey", JStr "secret")])
               ∅ [scan_pdf] (Some (λ _, Raise (mkExn "PDFSyntaxError" "No /Root object")))
               (λ _, Ok []) None unreachable one_found (Ok "/tmp/tmpa1.jsonl").

(** A request for a URL that cannot be reached. *)
Definition unreachable_run : RunnerA.World :=
  world_a (config_a "https://example.org/a" "Find people" [("apiKey", JStr "secret")])
          ∅ [] one_found 1002%float "/tmp/tmpa1.jsonl".



(** A request without a key, in an environment without one. *)
Definition no_key_run : RunnerA.World :=
  world_a (config_a "Ada met Bob." "Find people" []) ∅ [] one_found 1002%float
          "/tmp/tmpa1.jsonl".

(** A request without a key, in an environment that has one. *)
Definition env_key_run : RunnerA.World :=
  world_a (config_a "Ada met Bob." "Find people" [])
          (<["GEMINI_API_KEY" := "from-env"]> (<["HOME" := "/root"]> ∅)) [] one_found
          1002%float "/tmp/tmpa1.jsonl".

(** A request with a key, in an environment with another and with [HOME]. *)
Definition both_keys_run : RunnerA.World :=
  world_a (config_a "Ada met Bob." "Find people" [("apiKey", JStr "secret")])
          (<["GEMINI_API_KEY" := "from-env"]> (<["HOME" := "/root"]> ∅)) [] one_found
          1002%float "/tmp/tmpa1.jsonl".

(** The library is not installed. *)
Definition no_library_run : RunnerA.World :=
  world_a_with (config_a "Ada met Bob." "Find people" [("apiKey", JStr "secret")])
               ∅ [] None (λ _, Ok []) (Some "No module named 'langextract'")
               unreachable one_found (Ok "/tmp/tmpa1.jsonl").

(** The library fails. *)
Definition failing_run : RunnerA.World :=
  world_a (config_a "Ada met Bob." "Find people" [("apiKey", JStr "secret")]) ∅ []
          (Raise (mkExn "RuntimeError" "model unavailable")) 1002%float
          "/tmp/tmpa1.jsonl".

(** The library returns a result whose [extractions] is [None]. *)
Definition none_run : RunnerA.World :=
  world_a (config_a "Ada met Bob." "Find people" [("apiKey", JStr "secret")]) ∅ []
          (Ok (Lx.ExtractionsAttr None)) 1002%float "/tmp/tmpa1.jsonl".

Definition none_run_b : RunnerB.World :=
  world_b (Ok (config_b [])) ∅ (Ok (Lx.ExtractionsAttr None)).

(** The temporary file for the visualization cannot be made. *)
Definition no_tmp_run : RunnerA.World :=
  world_a_with (config_a "Ada met Bob." "Find people" [("apiKey", JStr "secret")])
               ∅ [] None (λ _, Ok []) None unreachable one_found
               (Raise (mkExn "OSError" "[Errno 28] No space left on device")).

(** A request whose [inputText] is [null]. *)
Definition null_text_run : RunnerA.World :=
  world_a (JObj [("inputText", JNull); ("promptDescription", JStr "Find people");
                 ("examples", JList []); ("modelId", JStr "gemini-2.5-flash")])
          ∅ [] one_found 1002%float "/tmp/tmpa1.jsonl".

(** An extraction of an example that has no [attributes]. *)
Definition bare_extraction : json :=
  JObj [("extraction_class", JStr "person"); ("extraction_text", JStr "Ada")].

Definition bare_example : json :=
  JObj [("text", JStr "Ada met Bob."); ("extractions", JList [bare_extraction])].

Definition bare_run_b : RunnerB.World :=
  world_b (Ok (JObj [("text", JStr "Ada met Bob."); ("prompt_description", JStr "Find people");
                     ("examples", JList [bare_example]);
                     ("model_id", JStr "gemini-2.5-flash")]))
          ∅ one_found.


(** The call that [first_run] and its like make. *)
Definition plain_call : Lx.Call :=
  {| Lx.text_or_documents := JStr "Ada met Bob.";
     Lx.prompt_description := JStr "Find people";
     Lx.examples := [];
     Lx.model_id := JStr "gemini-2.5-flash";
     Lx.extraction_passes := JInt 1;
     Lx.max_workers := JInt 5;
     Lx.max_char_buffer := Some (JInt 10000);
     Lx.api_key := None |}.


(** A request that names a file that does not exist, and a URL that
    answers with plain text. *)
Definition text_response : RunnerA.Response :=
  {| RunnerA.content_type := "text/plain; charset=utf-8";
     RunnerA.content := "Ada met Bob."; RunnerA.body_text := "Ada met Bob." |}.

Definition missing_file_url_run : RunnerA.World :=
  world_a_with (config_a "https://example.org/a" "Find people"
                         [("filePath", JStr "gone.txt"); ("apiKey", JStr "secret")])
               ∅ [] None (λ _, Ok []) None (λ _, Ok text_response) one_found
               (Ok "/tmp/tmpa1.jsonl").




(** A key that holds a NUL. *)
Definition nul_key : string := "a" +:+ String (ascii_of_nat 0) "b".

Definition nul_key_run : RunnerA.World :=
  world_a (config_a "Ada met Bob." "Find people" [("apiKey", JStr nul_key)]) ∅ []
          one_found 1002%float "/tmp/tmpa1.jsonl".

(** Runner B asked for its help text. *)
Definition help_run_b : RunnerB.World :=
  {| RunnerB.lx_installed := true;
     RunnerB.parse_args := RunnerB.HelpExit "usage: langextract_runner.py [-h] --config CONFIG";
     RunnerB.load_config := λ _, Ok (config_b []);
     RunnerB.environ := ∅;
     RunnerB.lx_extract := λ _ _, one_found |}.

(** A request with an example that has no [text]. *)
Definition no_text_example_run : RunnerA.World :=
  world_a (JObj [("inputText", JStr "Ada met Bob.");
                 ("promptDescription", JStr "Find people");
                 ("examples", JList [JObj [("extractions", JList [])]]);
                 ("modelId", JStr "gemini-2.5-flash"); ("apiKey", JStr "secret")])
          ∅ [] one_found 1002%float "/tmp/tmpa1.jsonl".

End Examples.

(** * Properties *)

Import Py.

(** ** The monad of results *)

Lemma argv_config_parsed (w : RunnerB.World) (path : string) :
  RunnerB.argv_config w = Some path → RunnerB.parse_args w = RunnerB.Parsed path.
Proof. unfold RunnerB.argv_config. destruct (RunnerB.parse_args w); naive_solver. Qed.

Lemma bind_ok {A B} (a : A) (f : A → res B) : Ok a ≫= f = f a.
Proof. reflexivity. Qed.

Lemma bind_raise {A B} (e : Exn) (f : A → res B) : Raise e ≫= f = Raise e.
Proof. reflexivity. Qed.

Lemma bind_ok_inv {A B} (m : res A) (f : A → res B) (b : B) :
  m ≫= f = Ok b → ∃ a, m = Ok a ∧ f a = Ok b.
Proof. destruct m as [a|e]; [eauto | discriminate]. Qed.

Lemma reraise_ok_inv {A} (prefix : string) (m : res A) (a : A) :
  reraise prefix m = Ok a → m = Ok a.
Proof. destruct m; simpl; congruence. Qed.

Lemma mapM_ok_map {A B C} (f : B → res C) (h : A → B) (g : A → C) (l : list A) :
  (∀ x, f (h x) = Ok (g x)) → mapM f (map h l) = Ok (map g l).
Proof.
  intros Hf. induction l as [|x l IH]; [reflexivity|].
  cbn [mapM map]. rewrite Hf, bind_ok.
  cbn [mapM map] in IH. rewrite IH. reflexivity.
Qed.

(** ** How a run of Runner A ends *)

Lemma main_of_run (w : RunnerA.World) (config : json) :
  RunnerA.stdin w = Ok config →
  RunnerA.main w
  = match RunnerA.result (RunnerA.run w config) with
    | Ok output =>
        {| Proc.usage := None; Proc.stdout := [output]; Proc.exit_code := 0;
           Proc.environ := RunnerA.env_after (RunnerA.run w config);
           Proc.lx_calls := RunnerA.calls (RunnerA.run w config) |}
    | Raise e =>
        Spec.failed w e (RunnerA.env_after (RunnerA.run w config))
                    (RunnerA.calls (RunnerA.run w config))
    end.
Proof. intros Hin. unfold RunnerA.main. by rewrite Hin. Qed.

(** A run whose input cannot be resolved ends there: nothing is written
    to the environment and the library is not called. *)
Lemma main_unresolved (w : RunnerA.World) (config : json) (e : Exn) :
  RunnerA.stdin w = Ok config →
  RunnerA.validate config RunnerA.required_fields = Ok tt →
  RunnerA.resolve_input w config = Raise e →
  RunnerA.main w = Spec.failed w e (RunnerA.environ w) [].
Proof.
  intros Hin Hv Hres. rewrite (main_of_run w config Hin).
  unfold RunnerA.run. by rewrite Hv, bind_ok, Hres.
Qed.

Lemma run_proceeds (w : RunnerA.World) (config : json) (input_text : string) :
  RunnerA.validate config RunnerA.required_fields = Ok tt →
  RunnerA.resolve_input w config = Ok (RunnerA.Proceed input_text) →
  RunnerA.run w config
  = match RunnerA.resolve_api_key (RunnerA.environ w) config with
    | Raise e =>
        {| RunnerA.result := Raise e; RunnerA.env_after := RunnerA.environ w;
           RunnerA.calls := [] |}
    | Ok api_key =>
        match RunnerA.set_api_key (RunnerA.environ w) api_key with
        | Raise e =>
            {| RunnerA.result := Raise e; RunnerA.env_after := RunnerA.environ w;
               RunnerA.calls := [] |}
        | Ok env' =>
            match RunnerA.import_langextract w
                  ≫= (λ _, RunnerA.prepare_examples config
                  ≫= (λ examples,
                        reraise "LangExtract processing failed: "
                                (RunnerA.call_arguments config input_text examples)))
            with
            | Raise e =>
                {| RunnerA.result := Raise e; RunnerA.env_after := env';
                   RunnerA.calls := [] |}
            | Ok call =>
                {| RunnerA.result :=
                     reraise "LangExtract processing failed: " (RunnerA.lx_extract w call env')
                     ≫= (λ result, RunnerA.normalize w input_text result
                     ≫= RunnerA.save_visualization w);
                   RunnerA.env_after := env';
                   RunnerA.calls := [(call, env')] |}
            end
        end
    end.
Proof. intros Hv Hres. unfold RunnerA.run. by rewrite Hv, bind_ok, Hres. Qed.

(** What a run that reaches the library comes to: one call, made in the
    environment that holds the key, and then the normalization of its
    result. *)
Lemma main_after_call (w : RunnerA.World) (config : json) (input_text key : string)
    (call : Lx.Call) :
  Spec.reaches_library w config input_text key call →
  RunnerA.main w
  = match reraise "LangExtract processing failed: "
                  (RunnerA.lx_extract w call (Spec.keyed w key))
          ≫= (λ result, RunnerA.normalize w input_text result
          ≫= RunnerA.save_visualization w) with
    | Ok output =>
        {| Proc.usage := None; Proc.stdout := [output]; Proc.exit_code := 0;
           Proc.environ := Spec.keyed w key;
           Proc.lx_calls := [(call, Spec.keyed w key)] |}
    | Raise e => Spec.failed w e (Spec.keyed w key) [(call, Spec.keyed w key)]
    end.
Proof.
  intros [Hin Hv Hres Hkey Hnul Himport Hcall].
  rewrite (main_of_run w config Hin), (run_proceeds w config input_text Hv Hres), Hkey.
  cbn [RunnerA.set_api_key]. rewrite Hnul.
  unfold RunnerA.import_langextract. rewrite Himport, bind_ok.
  apply bind_ok_inv in Hcall as (examples & -> & Hcall). rewrite bind_ok, Hcall.
  cbn [reraise]. fold (Spec.keyed w key).
  by destruct (reraise _ (RunnerA.lx_extract w call (Spec.keyed w key)) ≫= _).
Qed.

Lemma first_run_reaches_library (answer : res Lx.Result) (viz : string) :
  Spec.reaches_library
    (Examples.world_a
       (Examples.config_a "Ada met Bob." "Find people" [("apiKey", JStr "secret")])
       ∅ [] answer 1002%float viz)
    (Examples.config_a "Ada met Bob." "Find people" [("apiKey", JStr "secret")])
    "Ada met Bob." "secret" Examples.plain_call.
Proof. split; reflexivity. Qed.

(** ** Result normalization, common to both runners *)

Lemma class_of_extraction_dict (e : Lx.Found) :
  Lx.class_of (Lx.extraction_dict e) = Ok (Lx.found_class e).
Proof. reflexivity. Qed.

Lemma unique_classes_found (l : list Lx.Found) :
  Lx.unique_classes (map Lx.extraction_dict l) = Ok (Spec.distinct_classes l).
Proof.
  unfold Lx.unique_classes, Spec.distinct_classes.
  rewrite (mapM_ok_map _ _ Lx.found_class) by apply class_of_extraction_dict.
  reflexivity.
Qed.

Lemma sum_from_floats (a : float) (fs : list float) :
  sum_from (JFloat a) (map JFloat fs) = Ok (JFloat (fold_left PrimFloat.add fs a)).
Proof.
  revert a. induction fs as [|f fs IH]; intros a; [reflexivity|].
  cbn [map sum_from fold_left]. change (add (JFloat a) (JFloat f)) with (Ok (JFloat (a + f)%float)).
  rewrite bind_ok. apply IH.
Qed.

Lemma sum_floats (fs : list float) :
  fs ≠ [] → sum (map JFloat fs) = Ok (JFloat (float_sum fs)).
Proof.
  destruct fs as [|f fs]; [congruence|]. intros _.
  unfold sum, float_sum. cbn [map sum_from fold_left].
  change (add (JInt 0) (JFloat f)) with (Ok (JFloat (0 + f)%float)).
  rewrite bind_ok. apply sum_from_floats.
Qed.

(** [sum(confidences) / len(confidences)] on floats. *)
Lemma mean_floats (fs : list float) :
  fs ≠ [] →
  sum (map JFloat fs) ≫= (λ s, truediv s (len_list (map JFloat fs)))
  = Ok (JFloat (float_mean fs)).
Proof.
  intros Hne. rewrite sum_floats, bind_ok by done.
  unfold len_list, float_mean. rewrite length_map. reflexivity.
Qed.

(** ** Runner B: the metadata of the envelope *)

(** Line 60 keeps the confidences that are not [None], and no other value:
    the key is in every dict, so the default of [get] is never used. *)
Lemma confidences_found (l : list Lx.Found) :
  RunnerB.confidences (map Lx.extraction_dict l) = Ok (map JFloat (Spec.reported l)).
Proof.
  induction l as [|e l IH]; [reflexivity|].
  cbn [map RunnerB.confidences]. unfold Spec.reported in *. cbn [omap].
  destruct e as [c t a ps pe [f|]]; cbn -[RunnerB.confidences omap].
  - rewrite IH. reflexivity.
  - apply IH.
Qed.

Lemma avg_confidence_found (l : list Lx.Found) :
  RunnerB.avg_confidence (map JFloat (Spec.reported l))
  = Ok (Spec.average_of_reported (JFloat 0.0) l).
Proof.
  unfold RunnerB.avg_confidence, Spec.average_of_reported.
  destruct (Spec.reported l) as [|f fs] eqn:E; [reflexivity|].
  cbn [map]. change (JFloat f :: map JFloat fs) with (map JFloat (f :: fs)).
  apply mean_floats. done.
Qed.

Lemma success_envelope_found (l : list Lx.Found) :
  RunnerB.success_envelope (map Lx.extraction_dict l)
  = Ok (JObj [("success", JBool true);
              ("extractions", JList (map Lx.extraction_dict l));
              ("metadata",
               JObj [("total_extractions", JInt (Z.of_nat (length l)));
                     ("unique_classes", Spec.distinct_classes l);
                     ("average_confidence", Spec.average_of_reported (JFloat 0.0) l)])]).
Proof.
  unfold RunnerB.success_envelope.
  rewrite unique_classes_found, bind_ok, confidences_found, bind_ok.
  rewrite avg_confidence_found, bind_ok.
  unfold len_list. rewrite length_map. reflexivity.
Qed.

(** C1, as the specification states it, fails: for the classes A, A, B with
    confidences 0.5, 0.7 and none, Runner B reports the average 0.6 of the
    two confidences that are there, and not the average of 0.5, 0.7 and a
    substituted 1.0. *)
Lemma runner_b_average_excludes_missing :
  ∃ output,
    Proc.stdout (RunnerB.script Examples.three_run_b) = [JObj output]
    ∧ Spec.metadata output "average_confidence" = Some (JFloat 0.6)
    ∧ Spec.metadata output "average_confidence"
      ≠ Some (Spec.average_with_default Examples.three).
Proof.
  eexists. split; [vm_compute; reflexivity|]. split; [vm_compute; reflexivity|].
  vm_compute. intros H. discriminate H.
Qed.

(** C1, amended: whenever the library returns a list of extractions,
    Runner B's [average_confidence] is the mean of the confidences that are
    not [None], the extractions without one being left out of the mean, and
    0.0 when no extraction has one. *)
Theorem runner_b_average_of_reported (w : RunnerB.World) (config : json)
    (call : Lx.Call) (l : list Lx.Found) :
  RunnerB.prepare_call (RunnerB.environ w) config = Ok call →
  RunnerB.lx_extract w call (RunnerB.environ w) = Ok (Lx.ExtractionsAttr (Some l)) →
  ∃ output,
    fst (RunnerB.run_extraction w config) = JObj output
    ∧ Spec.metadata output "average_confidence"
      = Some (Spec.average_of_reported (JFloat 0.0) l).
Proof.
  intros Hcall Hlib. unfold RunnerB.run_extraction.
  rewrite Hcall, Hlib, bind_ok. cbn [RunnerB.process_results].
  rewrite bind_ok, success_envelope_found. eexists. split; reflexivity.
Qed.

Lemma runner_b_average_of_reported_witness :
  ∃ output,
    fst (RunnerB.run_extraction Examples.three_run_b (Examples.config_b [])) = JObj output
    ∧ Spec.metadata output "average_confidence"
      = Some (Spec.average_of_reported (JFloat 0.0) Examples.three).
Proof.
  eapply (runner_b_average_of_reported Examples.three_run_b); reflexivity.
Defined.

(** ** Runner A: the metadata of the envelope *)

Lemma collect_found (l : list Lx.Found) (dicts confs : list json) :
  fold_left RunnerA.collect l (dicts, confs)
  = (dicts ++ map Lx.extraction_dict l, confs ++ map JFloat (Spec.reported l)).
Proof.
  revert dicts confs. induction l as [|e l IH]; intros dicts confs.
  - cbn. by rewrite !app_nil_r.
  - destruct e as [c t a ps pe [f|]]; cbn [fold_left]; unfold RunnerA.collect at 2;
      unfold Spec.reported; simpl; rewrite IH; unfold Spec.reported;
      by rewrite <- !app_assoc.
Qed.

(** What [normalize] returns, in one expression. *)
Lemma normalize_found (w : RunnerA.World) (input_text : string) (result : Lx.Result) :
  let l := RunnerA.found result in
  RunnerA.normalize w input_text result
  = Ok [("success", JBool true);
        ("extractions", JList (map Lx.extraction_dict l));
        ("metadata",
         JObj [("totalExtractions", JInt (Z.of_nat (length l)));
               ("uniqueClasses", Spec.distinct_classes l);
               ("processingTime", RunnerA.processing_time w);
               ("inputLength", len input_text);
               ("averageConfidence", Spec.average_of_reported (JInt 0) l)])].
Proof.
  intros l. unfold RunnerA.normalize. fold l. rewrite collect_found.
  cbn [app]. destruct l as [|e l'] eqn:El; [reflexivity|].
  rewrite <- El. rewrite unique_classes_found, bind_ok.
  unfold Spec.average_of_reported.
  destruct (Spec.reported l) as [|f fs] eqn:Er.
  - cbn [map]. rewrite bind_ok. unfold len_list. by rewrite length_map.
  - change (map JFloat (f :: fs)) with (JFloat f :: map JFloat fs).
    cbv beta iota. change (JFloat f :: map JFloat fs) with (map JFloat (f :: fs)).
    rewrite mean_floats by done. rewrite bind_ok.
    unfold len_list. by rewrite length_map.
Qed.





(** ** The input resolver: files *)

(** A file whose MIME type mentions [text] goes through the first branch
    of the dispatch, whatever its extension. *)
Lemma text_branch_first (w : RunnerA.World) (p : string) :
  RunnerA.mentions "text" (RunnerA.guess_type w p) = true →
  RunnerA.extract_text_from_file w p None
  = reraise ("Failed to extract text from " +:+ RunnerA.suffix_lower w p +:+ " file: ")
            (RunnerA.read_text w p).
Proof. intros H. unfold RunnerA.extract_text_from_file. rewrite H. reflexivity. Qed.

(** C3, on the code: a file that [mimetypes] types as [text/html], as it
    does every [.html] and [.htm] file, is returned as it was read; its
    markup is never parsed, because line 56 takes every type that mentions
    [text] before line 103 is reached. *)
Theorem html_file_is_read_raw (w : RunnerA.World) (p : string) :
  RunnerA.guess_type w p = Some "text/html" →
  RunnerA.extract_text_from_file w p None
  = reraise ("Failed to extract text from " +:+ RunnerA.suffix_lower w p +:+ " file: ")
            (RunnerA.read_text w p).
Proof. intros H. apply text_branch_first. rewrite H. reflexivity. Qed.

Lemma html_file_is_read_raw_witness :
  RunnerA.suffix_lower Examples.html_run "page.html" = ".html"
  ∧ RunnerA.html_get_text Examples.html_run "<p>Hello</p>" = Ok "Hello"
  ∧ RunnerA.extract_text_from_file Examples.html_run "page.html" None
    = Ok "<p>Hello</p>".
Proof.
  split; [reflexivity|]. split; [reflexivity|].
  rewrite (html_file_is_read_raw Examples.html_run "page.html"); reflexivity.
Defined.

(** The run on that file hands the markup to the library. *)
Example html_run_sends_markup :
  map (λ c, Lx.text_or_documents (fst c)) (Proc.lx_calls (RunnerA.main Examples.html_run))
  = [JStr "<p>Hello</p>"].
Proof. vm_compute. reflexivity. Qed.

(** ** The input resolver: spreadsheets *)







(** ** Runner A: required fields *)

Lemma validate_object (fields : list (string * json)) (required : list string) :
  ((∀ k, k ∈ required → is_Some (lookup_field k fields))
   ∧ RunnerA.validate (JObj fields) required = Ok tt)
  ∨ ∃ field before after,
      required = before ++ field :: after
      ∧ (∀ k, k ∈ before → is_Some (lookup_field k fields))
      ∧ lookup_field field fields = None
      ∧ RunnerA.validate (JObj fields) required
        = Raise (ValueError ("Missing required field: " +:+ field)).
Proof.
  induction required as [|k required IH].
  - left. split; [|reflexivity]. intros k Hk. by apply elem_of_nil in Hk.
  - cbn [RunnerA.validate has_item]. rewrite bind_ok.
    destruct (lookup_field k fields) as [v|] eqn:Ek.
    + rewrite bool_decide_true by eauto.
      destruct IH as [[Hall Hv] | (field & before & after & -> & Hb & Hf & Hv)].
      * left. split; [|exact Hv]. intros k' [->|Hk']%elem_of_cons; eauto.
      * right. exists field, (k :: before), after. repeat split; try done.
        intros k' [->|Hk']%elem_of_cons; eauto.
    + rewrite bool_decide_false by (intros [? ?]; discriminate).
      right. exists k, [], required. repeat split; try done.
      intros k' Hk'. by apply elem_of_nil in Hk'.
Qed.

(** C8: when the object on standard input lacks a required key, Runner A
    prints an object with [success: false] whose error names the first
    required key that is missing, and exits with status 1. *)
Theorem missing_required_field (w : RunnerA.World) (fields : list (string * json)) :
  RunnerA.stdin w = Ok (JObj fields) →
  (∃ k, k ∈ RunnerA.required_fields ∧ lookup_field k fields = None) →
  ∃ field before after,
    RunnerA.required_fields = before ++ field :: after
    ∧ (∀ k, k ∈ before → is_Some (lookup_field k fields))
    ∧ lookup_field field fields = None
    ∧ Proc.stdout (RunnerA.main w)
      = [JObj [("success", JBool false);
               ("error", JStr ("Missing required field: " +:+ field));
               ("type", JStr "ValueError");
               ("traceback",
                JStr (RunnerA.format_exc w
                        (ValueError ("Missing required field: " +:+ field))))]]
    ∧ Proc.exit_code (RunnerA.main w) = 1%Z
    ∧ Proc.lx_calls (RunnerA.main w) = [].
Proof.
  intros Hin (k & Hk & Hnone).
  destruct (validate_object fields RunnerA.required_fields)
    as [[Hall _] | (field & before & after & Hsplit & Hb & Hf & Hv)].
  - destruct (Hall k Hk) as [v Hv]. congruence.
  - exists field, before, after. split; [exact Hsplit|]. split; [exact Hb|].
    split; [exact Hf|]. unfold RunnerA.main. rewrite Hin.
    unfold RunnerA.run. rewrite Hv, bind_raise. cbn. done.
Qed.

Lemma missing_required_field_witness :
  Proc.stdout (RunnerA.main Examples.no_model_run)
  = [JObj [("success", JBool false);
           ("error", JStr "Missing required field: modelId");
           ("type", JStr "ValueError");
           ("traceback", JStr "Traceback (most recent call last): ValueError")]]
  ∧ Proc.exit_code (RunnerA.main Examples.no_model_run) = 1%Z.
Proof.
  assert (∃ k, k ∈ RunnerA.required_fields
               ∧ lookup_field k [("inputText", JStr "Ada met Bob.");
                                 ("promptDescription", JStr "Find people");
                                 ("examples", JList [])] = None) as Hmissing.
  { exists "modelId". split; [|reflexivity]. unfold RunnerA.required_fields.
    set_solver. }
  destruct (missing_required_field Examples.no_model_run _ eq_refl Hmissing)
    as (field & before & after & _ & _ & _ & _ & Hexit & _).
  split; [reflexivity | exact Hexit].
Defined.

(** ** Runner B: failures *)

(** C9: once the library is imported, a failure to read the configuration
    file, to translate the examples or to call the library makes Runner B
    print [{success: false, error: <message>}], with no other key, and exit
    with status 0. *)
Theorem runner_b_failure (w : RunnerB.World) (path : string) (e : Exn) :
  RunnerB.lx_installed w = true →
  RunnerB.argv_config w = Some path →
  Spec.failure_b w path e →
  Proc.stdout (RunnerB.script w)
  = [JObj [("success", JBool false); ("error", JStr (exn_msg e))]]
  ∧ Proc.exit_code (RunnerB.script w) = 0%Z.
Proof.
  intros Hlx Harg%argv_config_parsed Hfail.
  unfold RunnerB.script. rewrite Hlx, Harg. cbn [negb].
  destruct Hfail as [e Hload | config e Hload Hex | config call e Hload Hcall Hlib];
    rewrite Hload; [done| |].
  - unfold RunnerB.run_extraction, RunnerB.prepare_call.
    rewrite Hex, bind_raise. done.
  - unfold RunnerB.run_extraction. rewrite Hcall, Hlib, bind_raise. done.
Qed.

Lemma runner_b_failure_witness :
  Proc.stdout (RunnerB.script Examples.failing_run_b)
  = [JObj [("success", JBool false); ("error", JStr "model unavailable")]]
  ∧ Proc.exit_code (RunnerB.script Examples.failing_run_b) = 0%Z.
Proof.
  apply (runner_b_failure Examples.failing_run_b "cfg.json"
           (mkExn "RuntimeError" "model unavailable")); [reflexivity..|].
  eapply Spec.library_invocation_failure; reflexivity.
Defined.

(** ** Runner A: the text-only short circuit *)

(** C5, as the specification states it, fails: for a text-only request on
    an existing file whose text is one space, which is not empty, Runner A
    reports a failure instead of returning the text. *)
Lemma text_only_fails_on_blank_text :
  RunnerA.extract_text_from_file Examples.blank_file_run "blank.txt" None = Ok " "
  ∧ Proc.stdout (RunnerA.main Examples.blank_file_run)
    = [JObj [("success", JBool false);
             ("error", JStr "File processing failed: No text could be extracted from the file");
             ("type", JStr "ValueError");
             ("traceback", JStr "Traceback (most recent call last): ValueError")]]
  ∧ Proc.exit_code (RunnerA.main Examples.blank_file_run) = 1%Z.
Proof. repeat split; vm_compute; reflexivity. Qed.

(** C5, amended: when the request has its required keys, its prompt is
    exactly "Extract text content", and its [filePath] names an existing
    file whose extracted text is not empty once stripped of surrounding
    white space, Runner A prints
    [{success: true, extractedText, metadata: {inputLength, processingTime}}],
    exits with status 0 and never calls the library. *)
Theorem text_only_short_circuit (w : RunnerA.World) (fields : list (string * json))
    (path text : string) :
  RunnerA.stdin w = Ok (JObj fields) →
  (∀ k, k ∈ RunnerA.required_fields → is_Some (lookup_field k fields)) →
  lookup_field "promptDescription" fields = Some (JStr "Extract text content") →
  lookup_field "filePath" fields = Some (JStr path) →
  path ≠ "" →
  RunnerA.path_exists w (JStr path) = Ok true →
  RunnerA.extract_text_from_file w path None = Ok text →
  strip text ≠ "" →
  RunnerA.main w
  = {| Proc.usage := None;
       Proc.stdout :=
         [JObj [("success", JBool true);
                ("extractedText", JStr text);
                ("metadata",
                 JObj [("inputLength", JInt (Z.of_nat (String.length text)));
                       ("processingTime",
                        JFloat ((RunnerA.time_end w - RunnerA.time_start w) * 1000)%float)])]];
       Proc.exit_code := 0;
       Proc.environ := RunnerA.environ w;
       Proc.lx_calls := [] |}.
Proof.
  intros Hin Hreq Hprompt Hpath Hne Hexists Htext Hstrip.
  unfold RunnerA.main. rewrite Hin. unfold RunnerA.run.
  destruct (validate_object fields RunnerA.required_fields)
    as [[_ ->] | (field & before & after & Hsplit & _ & Hf & _)].
  2:{ destruct (Hreq field) as [v Hv]; [|congruence].
      rewrite Hsplit. set_solver. }
  rewrite bind_ok. unfold RunnerA.resolve_input.
  destruct (Hreq "inputText") as [input Hinput]; [unfold RunnerA.required_fields; set_solver|].
  cbn [getitem get_method]. rewrite Hinput, bind_ok, Hpath.
  cbn [default from_option id]. rewrite bind_ok.
  assert (truthy (JStr path) = true) as -> by (destruct path; done).
  rewrite Hexists, bind_ok.
  unfold RunnerA.from_file. cbn [fspath]. rewrite bind_ok, Htext, bind_ok.
  assert (nonempty (strip text) = true) as -> by (destruct (strip text); done).
  cbn [getitem]. rewrite Hprompt, bind_ok. reflexivity.
Qed.

Lemma text_only_short_circuit_witness :
  Proc.stdout (RunnerA.main Examples.notes_run)
  = [JObj [("success", JBool true);
           ("extractedText", JStr "Ada met Bob.");
           ("metadata", JObj [("inputLength", JInt 12);
                              ("processingTime", JFloat 2000)])]]
  ∧ Proc.exit_code (RunnerA.main Examples.notes_run) = 0%Z
  ∧ Proc.lx_calls (RunnerA.main Examples.notes_run) = [].
Proof.
  assert (∀ k, k ∈ RunnerA.required_fields →
               is_Some (lookup_field k
                 [("inputText", JStr ""); ("promptDescription", JStr RunnerA.sentinel);
                  ("examples", JList []); ("modelId", JStr "gemini-2.5-flash");
                  ("filePath", JStr "notes.txt")])) as Hreq.
  { intros k Hk. unfold RunnerA.required_fields in Hk.
    repeat (apply elem_of_cons in Hk as [-> | Hk]; [eexists; reflexivity|]).
    by apply elem_of_nil in Hk. }
  rewrite (text_only_short_circuit Examples.notes_run _ "notes.txt" "Ada met Bob."
             eq_refl Hreq eq_refl eq_refl);
    [repeat split; reflexivity | discriminate | reflexivity | reflexivity
     | vm_compute; discriminate].
Defined.

(** ** Runner A: a file path that names no file *)

Lemma call_arguments_text (config : json) (input_text : string)
    (examples : list Lx.ExampleData) (call : Lx.Call) :
  RunnerA.call_arguments config input_text examples = Ok call →
  Lx.text_or_documents call = JStr input_text.
Proof.
  unfold RunnerA.call_arguments. intros H.
  repeat (apply bind_ok_inv in H as (? & _ & H)).
  injection H as <-. reflexivity.
Qed.

(** The calls of a run that goes on with [input_text] pass that text. *)
Lemma run_passes_resolved_text (w : RunnerA.World) (config : json) (input_text : string) :
  RunnerA.resolve_input w config = Ok (RunnerA.Proceed input_text) →
  ∀ call env, (call, env) ∈ RunnerA.calls (RunnerA.run w config) →
              Lx.text_or_documents call = JStr input_text.
Proof.
  intros Hres call env. unfold RunnerA.run.
  destruct (RunnerA.validate config RunnerA.required_fields) as [[]|e];
    [rewrite bind_ok, Hres | rewrite bind_raise; cbn; by intros ?%elem_of_nil].
  destruct (RunnerA.resolve_api_key _ _) as [key|e]; [|cbn; by intros ?%elem_of_nil].
  destruct (RunnerA.set_api_key _ _) as [env'|e]; [|cbn; by intros ?%elem_of_nil].
  destruct (RunnerA.import_langextract w) as [[]|e];
    [rewrite bind_ok | rewrite bind_raise; cbn; by intros ?%elem_of_nil].
  destruct (RunnerA.prepare_examples config) as [examples|e];
    [rewrite bind_ok | rewrite bind_raise; cbn; by intros ?%elem_of_nil].
  destruct (reraise _ (RunnerA.call_arguments config input_text examples))
    as [call'|e] eqn:Ecall; [|cbn; by intros ?%elem_of_nil].
  cbn [RunnerA.calls]. intros Hin%list_elem_of_singleton. injection Hin as -> _.
  apply reraise_ok_inv in Ecall. by eapply call_arguments_text.
Qed.

(** When [filePath] names no existing file, the input is resolved from
    [inputText] alone. *)
Lemma resolve_input_missing_file (w : RunnerA.World) (config file_path : json) :
  get_method config "filePath" JNull = Ok file_path →
  RunnerA.path_exists w file_path = Ok false →
  RunnerA.resolve_input w config
  = (getitem config "inputText" ≫= RunnerA.from_text w).
Proof.
  intros Hpath Hexists.
  unfold RunnerA.resolve_input. destruct (getitem config "inputText") as [input|e];
    [|reflexivity].
  rewrite !bind_ok, Hpath, bind_ok.
  destruct (truthy file_path); [rewrite Hexists|]; reflexivity.
Qed.

(** The text of a downloaded PDF does not depend on the name of the
    temporary file it went through. *)
Lemma extract_tmp_pdf (w : RunnerA.World) (body : string)
    (pdf_open : string → res (list (option string))) :
  RunnerA.pdfplumber w = Some pdf_open →
  RunnerA.extract_text_from_file (RunnerA.with_tmp_pdf w body) (RunnerA.tmp_pdf w)
                                 (Some "application/pdf")
  = reraise "Failed to extract text from .pdf file: "
            (RunnerA.pdf_of_bytes w body ≫= λ pages, Ok (RunnerA.pdf_text pages)).
Proof.
  intros Hpdf. unfold RunnerA.extract_text_from_file, RunnerA.with_tmp_pdf.
  cbn [RunnerA.suffix_lower RunnerA.pdfplumber RunnerA.guess_type nonempty].
  rewrite String.eqb_refl, Hpdf. cbn [fmap option_fmap option_map].
  change (RunnerA.mentions "text" (Some "application/pdf")) with false.
  change (RunnerA.ext_in ".pdf" [".txt"; ".md"; ".csv"]) with false.
  cbn [orb]. change (RunnerA.when_ext ".pdf" [".pdf"] ?x) with x.
  cbv beta iota. rewrite String.eqb_refl. reflexivity.
Qed.

(** The download, without the temporary file a PDF goes through. *)
Lemma download_fetched (w : RunnerA.World) (url : string) :
  RunnerA.download_and_extract_from_url w url = Spec.fetched w url.
Proof.
  unfold RunnerA.download_and_extract_from_url, Spec.fetched, Spec.response_text.
  destruct (RunnerA.requests_get w url) as [r|e]; [|reflexivity].
  rewrite !bind_ok. cbv zeta.
  destruct (contains "text/html" _); [reflexivity|].
  destruct (contains "text/" _); [reflexivity|].
  destruct (contains "application/pdf" _); [|reflexivity].
  destruct (RunnerA.pdfplumber w) as [pdf_open|] eqn:Epdf.
  - rewrite bool_decide_true by eauto. cbn [andb].
    by rewrite (extract_tmp_pdf w _ pdf_open).
  - rewrite bool_decide_false by (by intros [? ?]). reflexivity.
Qed.

Lemma resolve_input_without_file (w : RunnerA.World) (config file_path : json)
    (s : string) :
  get_method config "filePath" JNull = Ok file_path →
  RunnerA.path_exists w file_path = Ok false →
  getitem config "inputText" = Ok (JStr s) →
  RunnerA.resolve_input w config
  = match Spec.input_without_file w s with
    | Ok text => Ok (RunnerA.Proceed text)
    | Raise e => Raise e
    end.
Proof.
  intros Hpath Hexists Hs.
  rewrite (resolve_input_missing_file w config file_path Hpath Hexists), Hs, bind_ok.
  unfold RunnerA.from_text, Spec.input_without_file, Spec.is_url.
  destruct (_ || _); [|reflexivity].
  rewrite download_fetched.
  destruct (Spec.fetched w s) as [text|e]; [|reflexivity].
  rewrite !bind_ok. by destruct (nonempty (strip text)).
Qed.

(** C10: when [filePath] is given and no file exists at that path, the
    run goes on from [inputText] as if no path had been given. Unless a
    required key is missing, an [inputText] that starts with [http://] or
    [https://] is fetched: when that fails, the run ends with the failure
    of the URL, none of the path; otherwise, and for any other [inputText]
    as it is, the run goes on with that text, and once a key is resolved
    and written, the library imported and the arguments made up, it calls
    the library, once, with that text. *)
Theorem missing_file_falls_through (w : RunnerA.World) (config file_path : json)
    (s : string) :
  RunnerA.stdin w = Ok config →
  get_method config "filePath" JNull = Ok file_path →
  RunnerA.path_exists w file_path = Ok false →
  getitem config "inputText" = Ok (JStr s) →
  match RunnerA.validate config RunnerA.required_fields
        ≫= (λ _, Spec.input_without_file w s) with
  | Raise e => RunnerA.main w = Spec.failed w e (RunnerA.environ w) []
  | Ok text =>
      RunnerA.resolve_input w config = Ok (RunnerA.Proceed text)
      ∧ ∀ key call,
          RunnerA.resolve_api_key (RunnerA.environ w) config = Ok (JStr key) →
          has_nul key = false →
          RunnerA.lx_import w = None →
          RunnerA.prepare_examples config
          ≫= (λ examples, RunnerA.call_arguments config text examples) = Ok call →
          Proc.lx_calls (RunnerA.main w) = [(call, Spec.keyed w key)]
          ∧ Lx.text_or_documents call = JStr text
  end.
Proof.
  intros Hin Hpath Hexists Hs.
  pose proof (resolve_input_without_file w config file_path s Hpath Hexists Hs) as Hres.
  destruct (RunnerA.validate config RunnerA.required_fields) as [[]|e] eqn:Hv.
  2:{ rewrite bind_raise, (main_of_run w config Hin). unfold RunnerA.run.
      by rewrite Hv, bind_raise. }
  rewrite bind_ok.
  destruct (Spec.input_without_file w s) as [text|e].
  - split; [exact Hres|]. intros key call Hkey Hnul Himport Hcall.
    rewrite (main_after_call w config text key call) by (by split).
    split.
    + by destruct (reraise _ (RunnerA.lx_extract w call (Spec.keyed w key)) ≫= _).
    + apply bind_ok_inv in Hcall as (examples & _ & Hcall).
      by eapply call_arguments_text.
  - by apply (main_unresolved w config).
Qed.

Lemma missing_file_falls_through_witness :
  Proc.lx_calls (RunnerA.main Examples.missing_file_run)
  = [(Examples.plain_call, <["GEMINI_API_KEY" := "secret"]> ∅)]
  ∧ Lx.text_or_documents Examples.plain_call = JStr "Ada met Bob.".
Proof.
  destruct (missing_file_falls_through Examples.missing_file_run _ (JStr "gone.txt")
              "Ada met Bob." eq_refl eq_refl eq_refl eq_refl) as [_ H].
  exact (H "secret" Examples.plain_call eq_refl eq_refl eq_refl eq_refl).
Defined.

(** On such a request with a URL, the library is called with the text that
    the URL answered. *)
Example missing_file_url_run_calls :
  map (λ c, Lx.text_or_documents (fst c))
      (Proc.lx_calls (RunnerA.main Examples.missing_file_url_run))
  = [JStr "Ada met Bob."]
  ∧ Proc.exit_code (RunnerA.main Examples.missing_file_url_run) = 0%Z.
Proof. split; vm_compute; reflexivity. Qed.

(** ** The API key and the environment *)

Lemma main_effects (w : RunnerA.World) (config : json) :
  RunnerA.stdin w = Ok config →
  Proc.lx_calls (RunnerA.main w) = RunnerA.calls (RunnerA.run w config)
  ∧ Proc.environ (RunnerA.main w) = RunnerA.env_after (RunnerA.run w config).
Proof.
  intros Hin. unfold RunnerA.main. rewrite Hin.
  destruct (RunnerA.result (RunnerA.run w config)); done.
Qed.

(** A call of Runner A is made in the environment to which line 209 has
    added the resolved key, and the run ends in that environment. *)
Lemma run_call_environment (w : RunnerA.World) (config : json) (call : Lx.Call)
    (env : gmap string string) :
  (call, env) ∈ RunnerA.calls (RunnerA.run w config) →
  ∃ key, RunnerA.resolve_api_key (RunnerA.environ w) config = Ok (JStr key)
         ∧ env = <["GEMINI_API_KEY" := key]> (RunnerA.environ w)
         ∧ RunnerA.env_after (RunnerA.run w config) = env.
Proof.
  unfold RunnerA.run.
  destruct (RunnerA.validate config RunnerA.required_fields ≫= _) as [[output|input]|e];
    [cbn; by intros ?%elem_of_nil | | cbn; by intros ?%elem_of_nil].
  destruct (RunnerA.resolve_api_key _ _) as [key|e]; [|cbn; by intros ?%elem_of_nil].
  destruct (RunnerA.set_api_key _ key) as [env'|e] eqn:Eset;
    [|cbn; by intros ?%elem_of_nil].
  destruct key; try discriminate Eset.
  unfold RunnerA.set_api_key in Eset.
  destruct (has_nul _); [discriminate Eset|]. injection Eset as <-.
  destruct (RunnerA.import_langextract w ≫= _) as [call'|e];
    [|cbn; by intros ?%elem_of_nil].
  cbn [RunnerA.calls RunnerA.env_after].
  intros Hin%list_elem_of_singleton. injection Hin as -> ->. eauto.
Qed.

Lemma resolve_api_key_of_config (env : gmap string string) (config : json) (s : string) :
  get_method config "apiKey" JNull = Ok (JStr s) → s ≠ "" →
  RunnerA.resolve_api_key env config = Ok (JStr s).
Proof.
  intros Hget Hs. unfold RunnerA.resolve_api_key. rewrite Hget, bind_ok.
  unfold or_else. destruct s; [done|]. reflexivity.
Qed.

Lemma prepare_call_api_key (env : gmap string string) (config : json) (call : Lx.Call) :
  RunnerB.prepare_call env config = Ok call →
  ∃ key, RunnerB.resolve_api_key env config = Ok key ∧ Lx.api_key call = Some key.
Proof.
  unfold RunnerB.prepare_call. intros H.
  apply bind_ok_inv in H as (examples & _ & H).
  apply bind_ok_inv in H as (key & Hkey & H).
  repeat (apply bind_ok_inv in H as (? & _ & H)).
  injection H as <-. eauto.
Qed.

(** C4, as the specification states it, fails for Runner B: with the key
    in the configuration and an empty environment, the library is called
    with the key as an argument, in an environment that holds it nowhere,
    and the run ends in that same environment. *)
Lemma runner_b_leaves_environment :
  ∃ call env,
    Proc.lx_calls (RunnerB.script Examples.keyed_run_b) = [(call, env)]
    ∧ Lx.api_key call = Some (JStr "secret")
    ∧ ¬ Spec.holds_key env "secret"
    ∧ ¬ Spec.holds_key (Proc.environ (RunnerB.script Examples.keyed_run_b)) "secret".
Proof.
  eexists _, ∅. split; [reflexivity|]. split; [reflexivity|].
  split; intros [var Hvar]; cbn in Hvar; by rewrite lookup_empty in Hvar.
Qed.

(** C4, amended: before it calls the library, Runner A writes the resolved
    key, which is the key of the configuration when there is one, to
    [GEMINI_API_KEY] in the environment and leaves it there; Runner B never
    writes to the environment and hands the resolved key to the library as
    the [api_key] argument of the call. *)
Theorem api_key_reaches_library (wa : RunnerA.World) (wb : RunnerB.World) :
  (∀ call env, (call, env) ∈ Proc.lx_calls (RunnerA.main wa) →
     ∃ config key,
       RunnerA.stdin wa = Ok config
       ∧ RunnerA.resolve_api_key (RunnerA.environ wa) config = Ok (JStr key)
       ∧ (∀ s, get_method config "apiKey" JNull = Ok (JStr s) → s ≠ "" → key = s)
       ∧ env = <["GEMINI_API_KEY" := key]> (RunnerA.environ wa)
       ∧ env !! "GEMINI_API_KEY" = Some key
       ∧ Proc.environ (RunnerA.main wa) = env)
  ∧ Proc.environ (RunnerB.script wb) = RunnerB.environ wb
  ∧ (∀ call env, (call, env) ∈ Proc.lx_calls (RunnerB.script wb) →
     env = RunnerB.environ wb
     ∧ ∃ path config key,
         RunnerB.argv_config wb = Some path
         ∧ RunnerB.load_config wb path = Ok config
         ∧ RunnerB.resolve_api_key (RunnerB.environ wb) config = Ok key
         ∧ Lx.api_key call = Some key).
Proof.
  split; [|split].
  - intros call env Hin.
    destruct (RunnerA.stdin wa) as [config|e] eqn:Estdin.
    + destruct (main_effects wa config Estdin) as [Hcalls Henv].
      rewrite Hcalls in Hin. rewrite Henv.
      apply run_call_environment in Hin as (key & Hkey & -> & Hafter).
      exists config, key. repeat split; try done.
      * intros s Hs Hne.
        pose proof (resolve_api_key_of_config (RunnerA.environ wa) config s Hs Hne).
        congruence.
      * apply lookup_insert_eq.
    + unfold RunnerA.main in Hin. rewrite Estdin in Hin. by apply elem_of_nil in Hin.
  - unfold RunnerB.script.
    destruct (RunnerB.lx_installed wb), (RunnerB.parse_args wb) as [path|help|];
      try done.
    cbn [negb]. destruct (RunnerB.load_config wb path); [|done].
    by destruct (RunnerB.run_extraction wb a).
  - intros call env. unfold RunnerB.script.
    destruct (RunnerB.lx_installed wb); [|cbn; by intros ?%elem_of_nil].
    assert (∀ path, RunnerB.parse_args wb = RunnerB.Parsed path →
                    RunnerB.argv_config wb = Some path) as Hargv.
    { intros path Hp. unfold RunnerB.argv_config. by rewrite Hp. }
    destruct (RunnerB.parse_args wb) as [path|help|];
      [|cbn; by intros ?%elem_of_nil..].
    specialize (Hargv path eq_refl).
    cbn [negb]. destruct (RunnerB.load_config wb path) as [config|e] eqn:Eload;
      [|cbn; by intros ?%elem_of_nil].
    unfold RunnerB.run_extraction.
    destruct (RunnerB.prepare_call _ config) as [call'|e] eqn:Ecall;
      [|cbn; by intros ?%elem_of_nil].
    assert (∀ r : res json,
              (call, env) ∈ Proc.lx_calls
                (let '(result, calls) :=
                   match r with
                   | Ok envelope => (envelope, [(call', RunnerB.environ wb)])
                   | Raise e => (RunnerB.error_envelope e, [(call', RunnerB.environ wb)])
                   end in
                 {| Proc.usage := None; Proc.stdout := [result]; Proc.exit_code := 0;
                    Proc.environ := RunnerB.environ wb; Proc.lx_calls := calls |}) →
              (call, env) = (call', RunnerB.environ wb)) as Hcalls.
    { intros [?|?]; cbn; by intros ?%list_elem_of_singleton. }
    intros Hin%Hcalls. injection Hin as -> ->. split; [done|].
    apply prepare_call_api_key in Ecall as (key & Hkey & Hcall). eauto 10.
Qed.

Lemma api_key_reaches_library_witness :
  (∃ call env,
     Proc.lx_calls (RunnerA.main Examples.first_run) = [(call, env)]
     ∧ env !! "GEMINI_API_KEY" = Some "secret"
     ∧ Proc.environ (RunnerA.main Examples.first_run) = env)
  ∧ Proc.environ (RunnerB.script Examples.keyed_run_b) = ∅.
Proof.
  destruct (api_key_reaches_library Examples.first_run Examples.keyed_run_b)
    as (Ha & Hb & _).
  split; [|exact Hb].
  destruct (Proc.lx_calls (RunnerA.main Examples.first_run)) as [|[call env] rest] eqn:E;
    [discriminate E|].
  destruct rest; [|discriminate E].
  exists call, env. split; [reflexivity|].
  destruct (Ha call env) as (config & key & Hin & Hkey & _ & _ & Hlook & Henv);
    [apply list_elem_of_here|].
  injection Hin as <-. injection Hkey as <-. split; [exact Hlook | exact Henv].
Defined.

(** ** Repeated invocations *)

Lemma append_inv_head (s t1 t2 : string) : s +:+ t1 = s +:+ t2 → t1 = t2.
Proof. induction s as [|c s IH]; cbn; [done|]. intros H. injection H as H. auto. Qed.

Lemma append_assoc (s t u : string) : (s +:+ t) +:+ u = s +:+ t +:+ u.
Proof.
  induction s as [|c s IH]; [done|].
  change (String c ((s +:+ t) +:+ u) = String c (s +:+ t +:+ u)). by rewrite IH.
Qed.

Lemma join_snoc (sep : string) (l : list string) (x : string) :
  l ≠ [] → join sep (l ++ [x]) = join sep l +:+ sep +:+ x.
Proof.
  unfold join. induction l as [|a [|b l] IH]; [done|done|]. intros _.
  change (String.concat sep ((a :: b :: l) ++ [x]))
    with (a +:+ sep +:+ String.concat sep ((b :: l) ++ [x])).
  rewrite IH by done.
  change (String.concat sep (a :: b :: l)) with (a +:+ sep +:+ String.concat sep (b :: l)).
  by rewrite !append_assoc.
Qed.

(** The text of an object is that of its fields but the last, then the
    last. *)
Lemma dumps_last_field (float_repr : float → string) (fs : list (string * json))
    (k : string) (v1 v2 : json) :
  fs ≠ [] →
  dumps float_repr (JObj (fs ++ [(k, v1)])) = dumps float_repr (JObj (fs ++ [(k, v2)])) →
  dumps float_repr v1 = dumps float_repr v2.
Proof.
  intros Hne. cbn [dumps]. rewrite !map_app. cbn [map fst snd].
  rewrite !join_snoc by (destruct fs; done).
  rewrite !append_assoc. intros H.
  do 5 apply append_inv_head in H.
  revert H. generalize (dumps float_repr v1) (dumps float_repr v2). intros s1.
  induction s1 as [|c s1 IH]; intros [|c2 s2] H; try done.
  - destruct s2; discriminate.
  - destruct s1; discriminate.
  - injection H as -> H. f_equal. by apply IH.
Qed.

Lemma same_request_runs : Spec.same_request Examples.first_run Examples.second_run.
Proof. split; try reflexivity. right. by eexists _, _. Qed.

(** C2, as the specification states it, fails for Runner A: two
    invocations on the same request, with the same library response, print
    envelopes that differ outside the elapsed time, in the name of the
    visualization file. *)
Lemma runs_differ_in_visualization_file :
  Spec.same_request Examples.first_run Examples.second_run
  ∧ ∀ float_repr,
      Spec.printed float_repr Spec.without_time (RunnerA.main Examples.first_run)
      ≠ Spec.printed float_repr Spec.without_time (RunnerA.main Examples.second_run).
Proof.
  split; [exact same_request_runs|]. intros float_repr H.
  set (common :=
         [("success", JBool true);
          ("extractions",
           JList [Lx.extraction_dict (Examples.found_at "A" (Some 0.5%float))]);
          ("metadata",
           JObj [("totalExtractions", JInt 1); ("uniqueClasses", JInt 1);
                 ("processingTime", JNull); ("inputLength", JInt 12);
                 ("averageConfidence", JFloat 0.5)])]).
  assert (∀ viz,
            Spec.printed float_repr Spec.without_time
              (RunnerA.main (Examples.world_a
                 (Examples.config_a "Ada met Bob." "Find people" [("apiKey", JStr "secret")])
                 ∅ [] Examples.one_found 1002%float viz))
            = [dumps float_repr (JObj (common ++ [("visualization_file", JStr viz)]))])
    as Hprinted by (intros viz; vm_compute; reflexivity).
  unfold Examples.first_run, Examples.second_run in H. rewrite !Hprinted in H.
  apply (inj (λ s, [s])) in H. apply dumps_last_field in H; [|done].
  vm_compute in H. discriminate H.
Qed.

Lemma extract_text_same (w1 w2 : RunnerA.World) (p : string) (m : option string) :
  Spec.same_request w1 w2 →
  RunnerA.extract_text_from_file w1 p m = RunnerA.extract_text_from_file w2 p m.
Proof.
  intros []. unfold RunnerA.extract_text_from_file.
  repeat match goal with H : _ w1 = _ w2 |- _ => rewrite H; clear H end.
  reflexivity.
Qed.

Lemma download_same (w1 w2 : RunnerA.World) (url : string) :
  Spec.same_request w1 w2 →
  RunnerA.download_and_extract_from_url w1 url
  = RunnerA.download_and_extract_from_url w2 url.
Proof.
  intros Hsame. pose proof Hsame as [].
  unfold RunnerA.download_and_extract_from_url.
  rewrite same_requests_get, same_html_get_text, same_pdfplumber.
  destruct (RunnerA.requests_get w2 url) as [response|e]; [|reflexivity].
  rewrite !bind_ok. cbv zeta.
  destruct (contains "text/html" _); [reflexivity|].
  destruct (contains "text/" _); [reflexivity|].
  destruct (contains "application/pdf" _); [|reflexivity].
  destruct (RunnerA.pdfplumber w2) as [pdf_open|] eqn:Epdf; [|reflexivity].
  rewrite bool_decide_true by eauto. cbn [andb].
  rewrite (extract_tmp_pdf w1 _ pdf_open) by congruence.
  rewrite (extract_tmp_pdf w2 _ pdf_open) by congruence.
  by rewrite same_pdf_of_bytes.
Qed.

(** Two invocations on the same request resolve the input alike; when they
    return early, their outputs hold the same text. *)
Lemma resolve_input_same (w1 w2 : RunnerA.World) (config : json) :
  Spec.same_request w1 w2 →
  match RunnerA.resolve_input w1 config, RunnerA.resolve_input w2 config with
  | Ok (RunnerA.Returned o1), Ok (RunnerA.Returned o2) =>
      ∃ text, o1 = RunnerA.text_only_output w1 text
              ∧ o2 = RunnerA.text_only_output w2 text
  | Ok (RunnerA.Proceed t1), Ok (RunnerA.Proceed t2) => t1 = t2
  | Raise e1, Raise e2 => e1 = e2
  | _, _ => False
  end.
Proof.
  intros Hsame. unfold RunnerA.resolve_input.
  destruct (getitem config "inputText") as [input|e]; [|done]. rewrite !bind_ok.
  destruct (get_method config "filePath" JNull) as [file_path|e]; [|done].
  rewrite !bind_ok. rewrite (Spec.same_path_exists _ _ Hsame).
  destruct (if truthy file_path then _ else _) as [[|]|e]; [| |done]; rewrite !bind_ok.
  - unfold RunnerA.from_file. destruct (fspath file_path) as [path|e]; [|done].
    rewrite !bind_ok, (extract_text_same w1 w2) by done.
    destruct (RunnerA.extract_text_from_file w2 path None) as [text|e]; [|done].
    rewrite !bind_ok. destruct (nonempty (strip text)); [|done].
    destruct (getitem config "promptDescription") as [prompt|e]; [|done].
    rewrite !bind_ok. destruct (is_str _ _); cbn; eauto.
  - unfold RunnerA.from_text. destruct input; try done.
    destruct (_ || _); [|done].
    rewrite (download_same w1 w2) by done.
    destruct (RunnerA.download_and_extract_from_url w2 s) as [text|e]; [|done].
    rewrite !bind_ok. by destruct (nonempty (strip text)).
Qed.

Lemma stable_view_text_only (w1 w2 : RunnerA.World) (text : string) :
  Spec.stable_view (RunnerA.text_only_output w1 text)
  = Spec.stable_view (RunnerA.text_only_output w2 text).
Proof. reflexivity. Qed.

Lemma stable_view_error (w1 w2 : RunnerA.World) (e : Exn) :
  RunnerA.format_exc w1 = RunnerA.format_exc w2 →
  RunnerA.error_output w1 e = RunnerA.error_output w2 e.
Proof. intros H. unfold RunnerA.error_output. by rewrite H. Qed.

Lemma seen_main (float_repr : float → string) (w : RunnerA.World) (config : json) :
  RunnerA.stdin w = Ok config →
  (Spec.printed float_repr Spec.stable_view (RunnerA.main w),
   Proc.exit_code (RunnerA.main w))
  = Spec.seen float_repr w (RunnerA.result (RunnerA.run w config)).
Proof.
  intros Hin. unfold RunnerA.main. rewrite Hin.
  by destruct (RunnerA.result (RunnerA.run w config)).
Qed.

Lemma finish_same (float_repr : float → string) (w1 w2 : RunnerA.World)
    (input_text : string) (r : res Lx.Result) :
  Spec.same_request w1 w2 →
  Spec.seen float_repr w1 (r ≫= (λ result, RunnerA.normalize w1 input_text result
                                       ≫= RunnerA.save_visualization w1))
  = Spec.seen float_repr w2 (r ≫= (λ result, RunnerA.normalize w2 input_text result
                                         ≫= RunnerA.save_visualization w2)).
Proof.
  intros Hsame. destruct r as [result|e].
  2:{ rewrite !bind_raise. cbn [Spec.seen].
      by rewrite (stable_view_error w1 w2 e (Spec.same_format_exc _ _ Hsame)). }
  rewrite !bind_ok, !normalize_found, !bind_ok.
  unfold RunnerA.save_visualization. cbn [lookup_field String.eqb Ascii.eqb Bool.eqb].
  destruct (RunnerA.found result) as [|e l]; [reflexivity|].
  cbn [default from_option id truthy map].
  destruct (Spec.same_tmp_jsonl _ _ Hsame) as [Heq | (n1 & n2 & -> & ->)].
  - rewrite Heq. destruct (RunnerA.tmp_jsonl w2) as [name|e']; [reflexivity|].
    rewrite !bind_raise. cbn [Spec.seen].
    by rewrite (stable_view_error w1 w2 e' (Spec.same_format_exc _ _ Hsame)).
  - reflexivity.
Qed.

(** C2, amended: two invocations of Runner A on the same request print
    envelopes whose bytes are the same once the elapsed time and the name
    of the visualization file (there when an extraction was found) are set
    aside, and end with the same status; two invocations of Runner B print
    the same bytes. *)
Theorem repeated_invocations (float_repr : float → string)
    (w1 w2 : RunnerA.World) (b1 b2 : RunnerB.World) :
  Spec.same_request w1 w2 →
  Spec.same_request_b b1 b2 →
  Spec.printed float_repr Spec.stable_view (RunnerA.main w1)
  = Spec.printed float_repr Spec.stable_view (RunnerA.main w2)
  ∧ Proc.exit_code (RunnerA.main w1) = Proc.exit_code (RunnerA.main w2)
  ∧ Proc.stdout_bytes float_repr (RunnerB.script b1)
    = Proc.stdout_bytes float_repr (RunnerB.script b2)
  ∧ Proc.exit_code (RunnerB.script b1) = Proc.exit_code (RunnerB.script b2).
Proof.
  intros Hsame Hsame_b.
  assert (RunnerB.script b1 = RunnerB.script b2) as ->.
  { destruct b1, b2, Hsame_b. cbn in *. by subst. }
  cut ((Spec.printed float_repr Spec.stable_view (RunnerA.main w1),
        Proc.exit_code (RunnerA.main w1))
       = (Spec.printed float_repr Spec.stable_view (RunnerA.main w2),
          Proc.exit_code (RunnerA.main w2))).
  { intros H. injection H as -> ->. done. }
  pose proof (Spec.same_format_exc _ _ Hsame) as Hfmt.
  destruct (RunnerA.stdin w2) as [config|e] eqn:Estdin.
  2:{ unfold RunnerA.main. rewrite (Spec.same_stdin _ _ Hsame), Estdin.
      by rewrite (stable_view_error w1 w2 e Hfmt). }
  rewrite (seen_main float_repr w1 config), (seen_main float_repr w2 config)
    by (by rewrite ?(Spec.same_stdin _ _ Hsame)).
  unfold RunnerA.run. rewrite (Spec.same_environ _ _ Hsame).
  destruct (RunnerA.validate config RunnerA.required_fields) as [[]|e].
  2:{ rewrite !bind_raise. cbn [Spec.seen RunnerA.result]; by rewrite (stable_view_error w1 w2 e Hfmt). }
  rewrite !bind_ok. pose proof (resolve_input_same w1 w2 config Hsame) as Hres.
  destruct (RunnerA.resolve_input w1 config) as [[o1|t1]|e1],
           (RunnerA.resolve_input w2 config) as [[o2|t2]|e2]; try done.
  - destruct Hres as (text & -> & ->). reflexivity.
  - subst t2.
    destruct (RunnerA.resolve_api_key _ config) as [key|e].
    2:{ cbn [Spec.seen RunnerA.result]; by rewrite (stable_view_error w1 w2 e Hfmt). }
    destruct (RunnerA.set_api_key _ key) as [env'|e].
    2:{ cbn [Spec.seen RunnerA.result]; by rewrite (stable_view_error w1 w2 e Hfmt). }
    unfold RunnerA.import_langextract. rewrite (Spec.same_lx_import _ _ Hsame).
    destruct (_ ≫= _) as [call|e].
    2:{ cbn [Spec.seen RunnerA.result]; by rewrite (stable_view_error w1 w2 e Hfmt). }
    cbn [RunnerA.result]. rewrite (Spec.same_lx_extract _ _ Hsame).
    apply (finish_same float_repr w1 w2 t1 _ Hsame).
  - subst e2. cbn [Spec.seen RunnerA.result]. by rewrite (stable_view_error w1 w2 e1 Hfmt).
Qed.

Lemma same_request_b_refl (b : RunnerB.World) : Spec.same_request_b b b.
Proof. by split. Qed.

Lemma repeated_invocations_witness :
  Spec.printed (λ _, "0.5") Spec.stable_view (RunnerA.main Examples.first_run)
  = Spec.printed (λ _, "0.5") Spec.stable_view (RunnerA.main Examples.second_run)
  ∧ Proc.exit_code (RunnerA.main Examples.first_run)
    = Proc.exit_code (RunnerA.main Examples.second_run).
Proof.
  destruct (repeated_invocations (λ _, "0.5") Examples.first_run Examples.second_run
              Examples.keyed_run_b Examples.keyed_run_b same_request_runs
              (same_request_b_refl Examples.keyed_run_b)) as (H1 & H2 & _).
  split; [exact H1 | exact H2].
Defined.

(** * The rest of the code *)

(** ** Requests and failures *)

Lemma reraise_raise_inv {A} (prefix : string) (m : res A) (e : Exn) :
  reraise prefix m = Raise e →
  ∃ cause, m = Raise cause ∧ e = ValueError (prefix +:+ exn_msg cause).
Proof. destruct m as [a|cause]; [discriminate|]. intros [= <-]. eauto. Qed.

Lemma validate_present (fields : list (string * json)) :
  (∀ k, k ∈ RunnerA.required_fields → is_Some (lookup_field k fields)) →
  RunnerA.validate (JObj fields) RunnerA.required_fields = Ok tt.
Proof.
  intros Hreq.
  destruct (validate_object fields RunnerA.required_fields)
    as [[_ Hv] | (field & before & after & Hsplit & _ & Hf & _)]; [exact Hv|].
  destruct (Hreq field) as [v Hv]; [rewrite Hsplit; set_solver | congruence].
Qed.

Lemma resolve_input_file (w : RunnerA.World) (fields : list (string * json))
    (path : string) :
  is_Some (lookup_field "inputText" fields) →
  lookup_field "filePath" fields = Some (JStr path) →
  path ≠ "" →
  RunnerA.path_exists w (JStr path) = Ok true →
  RunnerA.resolve_input w (JObj fields) = RunnerA.from_file w (JObj fields) (JStr path).
Proof.
  intros [input Hinput] Hpath Hne Hexists. unfold RunnerA.resolve_input.
  cbn [getitem get_method]. rewrite Hinput, bind_ok, Hpath.
  cbn [default from_option id]. rewrite bind_ok.
  assert (truthy (JStr path) = true) as -> by (destruct path; done).
  by rewrite Hexists, bind_ok.
Qed.

Lemma input_text_present (fields : list (string * json)) :
  (∀ k, k ∈ RunnerA.required_fields → is_Some (lookup_field k fields)) →
  is_Some (lookup_field "inputText" fields).
Proof. intros Hreq. apply Hreq. unfold RunnerA.required_fields. set_solver. Qed.

(** ** Required fields *)

(** X1: An object passes the validation of lines 163-166 exactly when it has
    the four required keys: their values are not looked at, and no other
    key is asked for. *)
Theorem validate_iff_present (fields : list (string * json)) :
  RunnerA.validate (JObj fields) RunnerA.required_fields = Ok tt
  ↔ ∀ k, k ∈ RunnerA.required_fields → is_Some (lookup_field k fields).
Proof.
  split; [|apply validate_present]. intros Hv.
  destruct (validate_object fields RunnerA.required_fields)
    as [[Hall _] | (field & before & after & _ & _ & _ & Hraise)]; [exact Hall|].
  congruence.
Qed.

(** ** Files that cannot be used *)

(** X2: Whatever goes wrong in a format handler, [extract_text_from_file]
    raises a [ValueError] that names the extension and the cause, and
    Runner A reports it as a file-processing failure around that message,
    with status 1, the environment untouched and the library not called. *)
Theorem file_failure_report (w : RunnerA.World) (fields : list (string * json))
    (path : string) (e : Exn) :
  RunnerA.stdin w = Ok (JObj fields) →
  (∀ k, k ∈ RunnerA.required_fields → is_Some (lookup_field k fields)) →
  lookup_field "filePath" fields = Some (JStr path) →
  path ≠ "" →
  RunnerA.path_exists w (JStr path) = Ok true →
  RunnerA.extract_text_from_file w path None = Raise e →
  ∃ cause,
    e = ValueError ("Failed to extract text from " +:+ RunnerA.suffix_lower w path
                    +:+ " file: " +:+ cause)
    ∧ RunnerA.main w
      = Spec.failed w
          (ValueError ("File processing failed: Failed to extract text from "
                       +:+ RunnerA.suffix_lower w path +:+ " file: " +:+ cause))
          (RunnerA.environ w) [].
Proof.
  intros Hin Hreq Hpath Hne Hexists Hraise.
  pose proof Hraise as Hcause. unfold RunnerA.extract_text_from_file in Hcause.
  apply reraise_raise_inv in Hcause as (cause & _ & ->).
  exists (exn_msg cause). split; [by rewrite !append_assoc|].
  apply (main_unresolved w (JObj fields)); [done | by apply validate_present |].
  rewrite (resolve_input_file w fields path) by auto using input_text_present.
  unfold RunnerA.from_file. cbn [fspath]. rewrite bind_ok, Hraise, bind_raise.
  cbn [reraise exn_msg ValueError].
  change "File processing failed: Failed to extract text from "
    with ("File processing failed: " +:+ "Failed to extract text from ").
  by rewrite !append_assoc.
Qed.

Lemma file_failure_report_witness :
  Proc.stdout (RunnerA.main Examples.broken_pdf_run)
  = [JObj [("success", JBool false);
           ("error", JStr "File processing failed: Failed to extract text from .pdf file: No /Root object");
           ("type", JStr "ValueError");
           ("traceback", JStr "Traceback (most recent call last): ValueError")]]
  ∧ Proc.exit_code (RunnerA.main Examples.broken_pdf_run) = 1%Z.
Proof.
  assert (∀ k, k ∈ RunnerA.required_fields →
               is_Some (lookup_field k
                 [("inputText", JStr ""); ("promptDescription", JStr "Find people");
                  ("examples", JList []); ("modelId", JStr "gemini-2.5-flash");
                  ("filePath", JStr "scan.pdf"); ("apiKey", JStr "secret")])) as Hreq.
  { intros k Hk. unfold RunnerA.required_fields in Hk.
    repeat (apply elem_of_cons in Hk as [-> | Hk]; [eexists; reflexivity|]).
    by apply elem_of_nil in Hk. }
  destruct (file_failure_report Examples.broken_pdf_run _ "scan.pdf"
              (ValueError "Failed to extract text from .pdf file: No /Root object")
              eq_refl Hreq eq_refl) as (cause & Hcause & Hmain);
    [discriminate | reflexivity | reflexivity |].
  rewrite Hmain. injection Hcause as Hcause.
  change ("No /Root object" = cause) in Hcause. subst cause. split; reflexivity.
Defined.

Lemma config_a_required (input prompt : string) (more : list (string * json)) (k : string) :
  k ∈ RunnerA.required_fields →
  is_Some (lookup_field k
             ([("inputText", JStr input); ("promptDescription", JStr prompt);
               ("examples", JList []); ("modelId", JStr "gemini-2.5-flash")] ++ more)).
Proof.
  intros Hk. unfold RunnerA.required_fields in Hk.
  repeat (apply elem_of_cons in Hk as [-> | Hk]; [eexists; reflexivity|]).
  by apply elem_of_nil in Hk.
Qed.

(** X3: When a file is there but the text extracted from it is blank, Runner A
    fails with "No text could be extracted from the file", whatever the
    prompt is; the library is not called. *)
Theorem blank_text_fails (w : RunnerA.World) (fields : list (string * json))
    (path text : string) :
  RunnerA.stdin w = Ok (JObj fields) →
  (∀ k, k ∈ RunnerA.required_fields → is_Some (lookup_field k fields)) →
  lookup_field "filePath" fields = Some (JStr path) →
  path ≠ "" →
  RunnerA.path_exists w (JStr path) = Ok true →
  RunnerA.extract_text_from_file w path None = Ok text →
  strip text = "" →
  RunnerA.main w
  = Spec.failed w
      (ValueError "File processing failed: No text could be extracted from the file")
      (RunnerA.environ w) [].
Proof.
  intros Hin Hreq Hpath Hne Hexists Htext Hblank.
  apply (main_unresolved w (JObj fields)); [done | by apply validate_present |].
  rewrite (resolve_input_file w fields path) by auto using input_text_present.
  unfold RunnerA.from_file. cbn [fspath]. by rewrite bind_ok, Htext, bind_ok, Hblank.
Qed.

Lemma blank_text_fails_witness :
  RunnerA.extract_text_from_file Examples.scan_run "scan.pdf" None = Ok ""
  ∧ RunnerA.main Examples.scan_run
    = Spec.failed Examples.scan_run
        (ValueError "File processing failed: No text could be extracted from the file")
        ∅ [].
Proof.
  split; [reflexivity|].
  apply (blank_text_fails Examples.scan_run _ "scan.pdf" "" eq_refl
           (config_a_required _ _ _) eq_refl); [discriminate | reflexivity..].
Defined.

(** ** The text of a PDF *)

Lemma append_nil_r (s : string) : s +:+ "" = s.
Proof.
  induction s as [|c s IH]; [done|].
  change (String c (s +:+ "") = String c s). by rewrite IH.
Qed.

Lemma concat_empty_cons (x : string) (l : list string) :
  String.concat "" (x :: l) = x +:+ String.concat "" l.
Proof. destruct l; [symmetry; apply append_nil_r | reflexivity]. Qed.

Lemma add_pages (pages : list (option string)) (text : string) :
  fold_left (λ text page,
               match page with
               | Some page_text =>
                   if nonempty page_text then text +:+ page_text +:+ nl else text
               | None => text
               end) pages text
  = text +:+ String.concat "" (Spec.page_lines pages).
Proof.
  revert text. induction pages as [|[t|] pages IH]; intros text.
  - symmetry. apply append_nil_r.
  - cbn [fold_left]. rewrite IH. unfold Spec.page_lines.
    change (omap id (Some t :: pages)) with (t :: omap id pages).
    rewrite filter_cons. cbv beta. destruct (nonempty t).
    + rewrite decide_True by exact I. cbn [map].
      by rewrite concat_empty_cons, !append_assoc.
    + rewrite decide_False by (intros []). reflexivity.
  - cbn [fold_left]. apply IH.
Qed.

(** X4: The handler of lines 61-68 returns the texts of the pages that have
    one, each followed by a newline, in order and stripped as a whole; a
    PDF none of whose pages has text gives the empty string. *)
Theorem pdf_text_of_pages (pages : list (option string)) :
  RunnerA.pdf_text pages = strip (String.concat "" (Spec.page_lines pages))
  ∧ (Forall Spec.textless pages → RunnerA.pdf_text pages = "").
Proof.
  assert (RunnerA.pdf_text pages = strip (String.concat "" (Spec.page_lines pages))) as H.
  { unfold RunnerA.pdf_text. by rewrite add_pages. }
  split; [exact H|]. intros Hall. rewrite H. clear H.
  assert (Spec.page_lines pages = []) as ->; [|reflexivity].
  induction Hall as [|page pages [-> | ->] _ IH]; [reflexivity | exact IH | exact IH].
Qed.

(** ** The text of a presentation *)

Lemma add_shapes (shapes : list (option string)) (text : list string) :
  fold_left (λ text shape, match shape with Some t => text ++ [t] | None => text end)
            shapes text
  = text ++ omap id shapes.
Proof.
  revert text. induction shapes as [|[t|] shapes IH]; intros text; cbn [fold_left].
  - by rewrite app_nil_r.
  - rewrite IH. change (omap id (Some t :: shapes)) with (t :: omap id shapes).
    by rewrite <- app_assoc.
  - apply IH.
Qed.

Lemma add_slides (slides : list (list (option string))) (n : nat) (text : list string) :
  snd (fold_left RunnerA.add_slide slides (Z.of_nat (S n), text))
  = text ++ concat (imap (λ i, Spec.slide_lines (n + i)) slides).
Proof.
  revert n text. induction slides as [|shapes slides IH]; intros n text.
  - cbn. by rewrite app_nil_r.
  - cbn [fold_left]. unfold RunnerA.add_slide at 2. rewrite add_shapes.
    replace (Z.of_nat (S n) + 1)%Z with (Z.of_nat (S (S n))) by lia.
    rewrite IH, imap_cons. cbn [concat]. rewrite Nat.add_0_r, <- !app_assoc.
    f_equal. change (Spec.slide_lines n shapes)
      with (["Slide " +:+ int_repr (Z.of_nat (S n)) +:+ ":"] ++ omap id shapes).
    rewrite <- app_assoc. do 3 f_equal.
    apply imap_ext. intros i x _. unfold compose. by rewrite Nat.add_succ_r.
Qed.

(** X5: The handler of lines 92-100 returns, for each slide in order, the
    line [Slide <n>:] with [n] counted from 1, then the text of each shape
    that has a [text] attribute, all joined by newlines. *)
Theorem slides_text_lines (slides : list (list (option string))) :
  RunnerA.slides_text slides = join nl (concat (imap Spec.slide_lines slides)).
Proof. unfold RunnerA.slides_text. f_equal. exact (add_slides slides 0 []). Qed.

(** ** Documents whose parser is missing *)

(** X6: When the parser of a PDF, Word, Excel or PowerPoint file could not be
    imported, the file is not refused: it is read as plain text, undecodable
    bytes dropped. *)
Theorem absent_parser_reads_raw (w : RunnerA.World) (p : string) :
  Spec.parser_absent w (RunnerA.suffix_lower w p) →
  RunnerA.mentions "html" (RunnerA.guess_type w p) = false →
  RunnerA.extract_text_from_file w p None
  = reraise ("Failed to extract text from " +:+ RunnerA.suffix_lower w p +:+ " file: ")
            (RunnerA.read_text w p).
Proof.
  intros Habsent Hhtml. unfold RunnerA.extract_text_from_file. cbv zeta.
  rewrite Hhtml.
  destruct (RunnerA.mentions "text" (RunnerA.guess_type w p)); [reflexivity|].
  destruct Habsent as [[-> ->] | [[[-> | ->] ->] | [[[-> | ->] ->] | [[-> | ->] ->]]]];
    reflexivity.
Qed.

Lemma absent_parser_reads_raw_witness :
  RunnerA.extract_text_from_file Examples.no_pdfplumber_run "scan.pdf" None = Ok "%PDF".
Proof.
  rewrite (absent_parser_reads_raw Examples.no_pdfplumber_run "scan.pdf");
    [reflexivity | left; split; reflexivity | reflexivity].
Defined.

(** ** A file takes the place of the input text *)

(** X7: When [filePath] names an existing file with text and the prompt is not
    the text-only one, the text of the file is what the library is called
    with; [inputText] is not used, and not fetched when it is a URL. *)
Theorem file_text_is_used (w : RunnerA.World) (fields : list (string * json))
    (path text : string) (prompt : json) :
  RunnerA.stdin w = Ok (JObj fields) →
  (∀ k, k ∈ RunnerA.required_fields → is_Some (lookup_field k fields)) →
  lookup_field "promptDescription" fields = Some prompt →
  is_str "Extract text content" prompt = false →
  lookup_field "filePath" fields = Some (JStr path) →
  path ≠ "" →
  RunnerA.path_exists w (JStr path) = Ok true →
  RunnerA.extract_text_from_file w path None = Ok text →
  strip text ≠ "" →
  RunnerA.resolve_input w (JObj fields) = Ok (RunnerA.Proceed text)
  ∧ ∀ call env, (call, env) ∈ Proc.lx_calls (RunnerA.main w) →
                Lx.text_or_documents call = JStr text.
Proof.
  intros Hin Hreq Hprompt Hsentinel Hpath Hne Hexists Htext Hstrip.
  assert (RunnerA.resolve_input w (JObj fields) = Ok (RunnerA.Proceed text)) as Hres.
  { rewrite (resolve_input_file w fields path) by auto using input_text_present.
    unfold RunnerA.from_file. cbn [fspath]. rewrite bind_ok, Htext, bind_ok.
    assert (nonempty (strip text) = true) as -> by (destruct (strip text); done).
    cbn [getitem]. rewrite Hprompt, bind_ok. unfold RunnerA.sentinel.
    by rewrite Hsentinel. }
  split; [exact Hres|]. intros call env.
  destruct (main_effects w (JObj fields) Hin) as [-> _].
  by apply run_passes_resolved_text.
Qed.

Lemma file_text_is_used_witness :
  map (λ c, Lx.text_or_documents (fst c)) (Proc.lx_calls (RunnerA.main Examples.html_run))
  = [JStr "<p>Hello</p>"].
Proof.
  destruct (file_text_is_used Examples.html_run _ "page.html" "<p>Hello</p>"
              (JStr "Find people") eq_refl (config_a_required _ _ _) eq_refl eq_refl
              eq_refl) as [_ Hcalls];
    [discriminate | reflexivity | reflexivity | vm_compute; discriminate |].
  destruct (Proc.lx_calls (RunnerA.main Examples.html_run)) as [|[call env] rest] eqn:E;
    [discriminate E|].
  destruct rest; [|discriminate E].
  cbn [map fst]. by rewrite (Hcalls call env) by apply list_elem_of_here.
Defined.

(** ** Input from a URL *)

(** X8: When the URL of [inputText] cannot be fetched, Runner A reports
    "URL processing failed: Failed to download or extract text from URL:"
    and the cause, with status 1, the environment untouched and the
    library not called. *)
Theorem url_failure_report (w : RunnerA.World) (fields : list (string * json))
    (url : string) (e : Exn) :
  RunnerA.stdin w = Ok (JObj fields) →
  (∀ k, k ∈ RunnerA.required_fields → is_Some (lookup_field k fields)) →
  lookup_field "inputText" fields = Some (JStr url) →
  startswith url "http://" || startswith url "https://" = true →
  lookup_field "filePath" fields = None →
  RunnerA.requests_get w url = Raise e →
  RunnerA.main w
  = Spec.failed w
      (ValueError ("URL processing failed: Failed to download or extract text from URL: "
                   +:+ exn_msg e))
      (RunnerA.environ w) [].
Proof.
  intros Hin Hreq Hinput Hurl Hpath Hget.
  apply (main_unresolved w (JObj fields)); [done | by apply validate_present |].
  unfold RunnerA.resolve_input. cbn [getitem get_method].
  rewrite Hinput, bind_ok, Hpath. cbn [default from_option truthy]. rewrite !bind_ok.
  unfold RunnerA.from_text. rewrite Hurl.
  unfold RunnerA.download_and_extract_from_url. rewrite Hget, bind_raise.
  cbn [reraise bind_raise exn_msg ValueError]. rewrite bind_raise.
  cbn [reraise exn_msg ValueError].
  change "URL processing failed: Failed to download or extract text from URL: "
    with ("URL processing failed: " +:+ "Failed to download or extract text from URL: ").
  by rewrite append_assoc.
Qed.

Lemma url_failure_report_witness :
  Proc.stdout (RunnerA.main Examples.unreachable_run)
  = [JObj [("success", JBool false);
           ("error", JStr "URL processing failed: Failed to download or extract text from URL: cannot reach https://example.org/a");
           ("type", JStr "ValueError");
           ("traceback", JStr "Traceback (most recent call last): ValueError")]].
Proof.
  rewrite (url_failure_report Examples.unreachable_run _ "https://example.org/a"
             (mkExn "ConnectionError" "cannot reach https://example.org/a")
             eq_refl (config_a_required _ _ _) eq_refl);
    reflexivity.
Defined.



(** ** The API key and the environment, further *)

(** X10: Without a key in the request and without [GEMINI_API_KEY] in the
    environment (or with an empty one), a run whose input is resolved
    fails with "No API key provided", before the library is imported or
    called, and writes nothing to the environment. *)
Theorem missing_api_key (w : RunnerA.World) (config k : json) (input_text : string) :
  RunnerA.stdin w = Ok config →
  RunnerA.validate config RunnerA.required_fields = Ok tt →
  RunnerA.resolve_input w config = Ok (RunnerA.Proceed input_text) →
  get_method config "apiKey" JNull = Ok k →
  truthy k = false →
  RunnerA.environ w !! "GEMINI_API_KEY" = None
  ∨ RunnerA.environ w !! "GEMINI_API_KEY" = Some "" →
  RunnerA.main w
  = Spec.failed w
      (ValueError "No API key provided. Set GEMINI_API_KEY environment variable.")
      (RunnerA.environ w) [].
Proof.
  intros Hin Hv Hres Hk Hfalse Henv.
  rewrite (main_of_run w config Hin), (run_proceeds w config input_text Hv Hres).
  unfold RunnerA.resolve_api_key, or_else. rewrite Hk, bind_ok, Hfalse.
  by destruct Henv as [-> | ->].
Qed.

Lemma missing_api_key_witness :
  Proc.stdout (RunnerA.main Examples.no_key_run)
  = [JObj [("success", JBool false);
           ("error", JStr "No API key provided. Set GEMINI_API_KEY environment variable.");
           ("type", JStr "ValueError");
           ("traceback", JStr "Traceback (most recent call last): ValueError")]]
  ∧ Proc.lx_calls (RunnerA.main Examples.no_key_run) = [].
Proof.
  rewrite (missing_api_key Examples.no_key_run _ JNull "Ada met Bob." eq_refl);
    [split; reflexivity | reflexivity.. | left; reflexivity].
Defined.

(** Where a run of Runner A leaves the environment: as it found it, or
    with the resolved key written to [GEMINI_API_KEY]. *)
Lemma run_environment (w : RunnerA.World) (config : json) :
  RunnerA.env_after (RunnerA.run w config) = RunnerA.environ w
  ∨ ∃ key, RunnerA.resolve_api_key (RunnerA.environ w) config = Ok (JStr key)
           ∧ RunnerA.env_after (RunnerA.run w config) = Spec.keyed w key.
Proof.
  unfold RunnerA.run.
  destruct (RunnerA.validate config RunnerA.required_fields ≫= _) as [[output|input]|e];
    [by left | | by left].
  destruct (RunnerA.resolve_api_key _ _) as [key|e]; [|by left].
  destruct (RunnerA.set_api_key _ key) as [env'|e] eqn:Eset; [|by left].
  destruct key; try discriminate Eset.
  unfold RunnerA.set_api_key in Eset.
  destruct (has_nul _); [discriminate Eset|]. injection Eset as <-.
  right. exists s. split; [done|]. by destruct (RunnerA.import_langextract w ≫= _).
Qed.

(** X11: Runner A never changes an environment variable other than
    [GEMINI_API_KEY]. *)
Theorem other_variables_kept (w : RunnerA.World) (var : string) :
  var ≠ "GEMINI_API_KEY" →
  Proc.environ (RunnerA.main w) !! var = RunnerA.environ w !! var.
Proof.
  intros Hvar. destruct (RunnerA.stdin w) as [config|e] eqn:Hin.
  - destruct (main_effects w config Hin) as [_ ->].
    destruct (run_environment w config) as [-> | (key & _ & ->)]; [done|].
    unfold Spec.keyed. by rewrite lookup_insert_ne.
  - unfold RunnerA.main. by rewrite Hin.
Qed.

Lemma other_variables_kept_witness :
  Proc.environ (RunnerA.main Examples.both_keys_run) !! "HOME" = Some "/root"
  ∧ Proc.environ (RunnerA.main Examples.both_keys_run) !! "GEMINI_API_KEY" = Some "secret".
Proof.
  split; [|reflexivity].
  rewrite (other_variables_kept Examples.both_keys_run "HOME"); [reflexivity | discriminate].
Defined.

(** X12: When the request gives no key, so that the key is the one of the
    environment, a run of Runner A ends in the environment it started
    in. *)
Theorem key_of_environment_kept (w : RunnerA.World) (config k : json) :
  RunnerA.stdin w = Ok config →
  get_method config "apiKey" JNull = Ok k →
  truthy k = false →
  Proc.environ (RunnerA.main w) = RunnerA.environ w.
Proof.
  intros Hin Hk Hfalse. destruct (main_effects w config Hin) as [_ ->].
  destruct (run_environment w config) as [-> | (key & Hkey & ->)]; [done|].
  unfold RunnerA.resolve_api_key, or_else in Hkey. rewrite Hk, bind_ok, Hfalse in Hkey.
  destruct (RunnerA.environ w !! "GEMINI_API_KEY") as [v|] eqn:Ev; cbn in Hkey.
  - destruct (nonempty v); [|discriminate]. injection Hkey as ->.
    unfold Spec.keyed. by apply insert_id.
  - discriminate.
Qed.

Lemma key_of_environment_kept_witness :
  Proc.environ (RunnerA.main Examples.env_key_run) = RunnerA.environ Examples.env_key_run
  ∧ Proc.exit_code (RunnerA.main Examples.env_key_run) = 0%Z.
Proof.
  split; [|reflexivity].
  eapply (key_of_environment_kept Examples.env_key_run); reflexivity.
Defined.

(** ** No retries *)

(** X13: Neither runner calls the library more than once in a run. *)
Theorem at_most_one_call (wa : RunnerA.World) (wb : RunnerB.World) :
  length (Proc.lx_calls (RunnerA.main wa)) ≤ 1
  ∧ length (Proc.lx_calls (RunnerB.script wb)) ≤ 1.
Proof.
  split.
  - destruct (RunnerA.stdin wa) as [config|e] eqn:Hin.
    + destruct (main_effects wa config Hin) as [-> _]. unfold RunnerA.run.
      destruct (RunnerA.validate config RunnerA.required_fields ≫= _)
        as [[output|input]|e]; cbn; [lia| |lia].
      destruct (RunnerA.resolve_api_key _ _) as [key|e]; cbn; [|lia].
      destruct (RunnerA.set_api_key _ key) as [env'|e]; cbn; [|lia].
      destruct (RunnerA.import_langextract wa ≫= _); cbn; lia.
    + unfold RunnerA.main. rewrite Hin. cbn. lia.
  - unfold RunnerB.script, RunnerB.run_extraction.
    destruct (RunnerB.lx_installed wb); cbn; [|lia].
    destruct (RunnerB.parse_args wb) as [path|help|]; cbn; [|lia..].
    destruct (RunnerB.load_config wb path) as [config|e]; cbn; [|lia].
    destruct (RunnerB.prepare_call _ config) as [call|e]; cbn; [|lia].
    destruct (RunnerB.lx_extract wb call _ ≫= _); cbn; lia.
Qed.

(** ** After the input is resolved *)

(** X14: A failed import of the library is reported as such, and comes after
    line 209: when the resolved key is a string without NUL, which line 209
    writes, the key stays written in the environment of the process. *)
Theorem import_failure_report (w : RunnerA.World) (config : json)
    (input_text key msg : string) :
  RunnerA.stdin w = Ok config →
  RunnerA.validate config RunnerA.required_fields = Ok tt →
  RunnerA.resolve_input w config = Ok (RunnerA.Proceed input_text) →
  RunnerA.resolve_api_key (RunnerA.environ w) config = Ok (JStr key) →
  has_nul key = false →
  RunnerA.lx_import w = Some msg →
  RunnerA.main w
  = Spec.failed w (ValueError ("LangExtract library not available: " +:+ msg))
                (Spec.keyed w key) [].
Proof.
  intros Hin Hv Hres Hkey Hnul Himport.
  rewrite (main_of_run w config Hin), (run_proceeds w config input_text Hv Hres), Hkey.
  cbn [RunnerA.set_api_key]. rewrite Hnul.
  unfold RunnerA.import_langextract. by rewrite Himport.
Qed.

Lemma import_failure_report_witness :
  Proc.stdout (RunnerA.main Examples.no_library_run)
  = [JObj [("success", JBool false);
           ("error", JStr "LangExtract library not available: No module named 'langextract'");
           ("type", JStr "ValueError");
           ("traceback", JStr "Traceback (most recent call last): ValueError")]]
  ∧ Proc.environ (RunnerA.main Examples.no_library_run) !! "GEMINI_API_KEY"
    = Some "secret".
Proof.
  rewrite (import_failure_report Examples.no_library_run _ "Ada met Bob." "secret"
             "No module named 'langextract'" eq_refl);
    [split; reflexivity | reflexivity..].
Defined.

(** ** A key that line 209 refuses *)

(** X25: A resolved key that holds a NUL fails the run of Runner A at line
    209 with the [ValueError] "embedded null byte": nothing is written to
    the environment, and the library is neither imported nor called. *)
Theorem key_with_nul (w : RunnerA.World) (config : json) (input_text key : string) :
  RunnerA.stdin w = Ok config →
  RunnerA.validate config RunnerA.required_fields = Ok tt →
  RunnerA.resolve_input w config = Ok (RunnerA.Proceed input_text) →
  RunnerA.resolve_api_key (RunnerA.environ w) config = Ok (JStr key) →
  has_nul key = true →
  RunnerA.main w
  = Spec.failed w (ValueError "embedded null byte") (RunnerA.environ w) [].
Proof.
  intros Hin Hv Hres Hkey Hnul.
  rewrite (main_of_run w config Hin), (run_proceeds w config input_text Hv Hres), Hkey.
  cbn [RunnerA.set_api_key]. by rewrite Hnul.
Qed.

Lemma key_with_nul_witness :
  Proc.stdout (RunnerA.main Examples.nul_key_run)
  = [JObj [("success", JBool false);
           ("error", JStr "embedded null byte");
           ("type", JStr "ValueError");
           ("traceback", JStr "Traceback (most recent call last): ValueError")]]
  ∧ Proc.environ (RunnerA.main Examples.nul_key_run) = ∅
  ∧ Proc.lx_calls (RunnerA.main Examples.nul_key_run) = [].
Proof.
  rewrite (key_with_nul Examples.nul_key_run _ "Ada met Bob." Examples.nul_key
             eq_refl);
    [repeat split; reflexivity | reflexivity..].
Defined.

(** ** The library fails *)

(** X15: In a run that reaches the library (the input and the key are
    resolved, the key is a string without NUL, which line 209 writes, the
    import and the arguments succeed), an exception of the library is
    reported as "LangExtract processing failed:" and its message, with
    status 1; the call was made once, with the key in the environment. *)
Theorem library_failure_report (w : RunnerA.World) (config : json)
    (input_text key : string) (call : Lx.Call) (e : Exn) :
  Spec.reaches_library w config input_text key call →
  RunnerA.lx_extract w call (Spec.keyed w key) = Raise e →
  RunnerA.main w
  = Spec.failed w (ValueError ("LangExtract processing failed: " +:+ exn_msg e))
                (Spec.keyed w key) [(call, Spec.keyed w key)].
Proof.
  intros Hreach Hlib. rewrite (main_after_call w config input_text key call Hreach).
  by rewrite Hlib.
Qed.

Lemma library_failure_report_witness :
  Proc.stdout (RunnerA.main Examples.failing_run)
  = [JObj [("success", JBool false);
           ("error", JStr "LangExtract processing failed: model unavailable");
           ("type", JStr "ValueError");
           ("traceback", JStr "Traceback (most recent call last): ValueError")]]
  ∧ Proc.exit_code (RunnerA.main Examples.failing_run) = 1%Z.
Proof.
  rewrite (library_failure_report Examples.failing_run _ "Ada met Bob." "secret"
             Examples.plain_call (mkExn "RuntimeError" "model unavailable")
             (first_run_reaches_library _ _));
    [split; reflexivity | reflexivity].
Defined.

(** ** The visualization file *)



(** ** A result without extractions *)

(** X17: When the [extractions] of the library's result is [None], Runner A,
    in a run that reaches the library (the key a string without NUL, which
    line 209 writes), prints a success envelope with no extraction and
    counts of 0, while Runner B, which iterates over it, prints the failure
    "'NoneType' object is not iterable". *)
Theorem extractions_none (wa : RunnerA.World) (config : json)
    (input_text key : string) (call : Lx.Call)
    (wb : RunnerB.World) (config_b : json) (call_b : Lx.Call) :
  Spec.reaches_library wa config input_text key call →
  RunnerA.lx_extract wa call (Spec.keyed wa key) = Ok (Lx.ExtractionsAttr None) →
  RunnerB.prepare_call (RunnerB.environ wb) config_b = Ok call_b →
  RunnerB.lx_extract wb call_b (RunnerB.environ wb) = Ok (Lx.ExtractionsAttr None) →
  Proc.stdout (RunnerA.main wa)
  = [JObj [("success", JBool true);
           ("extractions", JList []);
           ("metadata",
            JObj [("totalExtractions", JInt 0); ("uniqueClasses", JInt 0);
                  ("processingTime", RunnerA.processing_time wa);
                  ("inputLength", len input_text);
                  ("averageConfidence", JInt 0)])]]
  ∧ Proc.exit_code (RunnerA.main wa) = 0%Z
  ∧ fst (RunnerB.run_extraction wb config_b)
    = JObj [("success", JBool false);
            ("error", JStr "'NoneType' object is not iterable")].
Proof.
  intros Hreach Hlib Hcall_b Hlib_b.
  rewrite (main_after_call wa config input_text key call Hreach), Hlib.
  split; [reflexivity|]. split; [reflexivity|].
  unfold RunnerB.run_extraction. by rewrite Hcall_b, Hlib_b.
Qed.

Lemma extractions_none_witness :
  Proc.exit_code (RunnerA.main Examples.none_run) = 0%Z
  ∧ Proc.stdout (RunnerB.script Examples.none_run_b)
    = [JObj [("success", JBool false);
             ("error", JStr "'NoneType' object is not iterable")]].
Proof.
  destruct (extractions_none Examples.none_run _ "Ada met Bob." "secret"
              Examples.plain_call Examples.none_run_b (Examples.config_b []) _
              (first_run_reaches_library _ _) eq_refl eq_refl eq_refl)
    as (_ & Hexit & Hb).
  split; [exact Hexit|]. unfold RunnerB.script. cbn -[RunnerB.run_extraction].
  destruct (RunnerB.run_extraction Examples.none_run_b (Examples.config_b []))
    as [envelope calls] eqn:E.
  cbn in Hb. by subst envelope.
Defined.

(** ** The exit status and the envelope *)

Lemma resolve_returned (w : RunnerA.World) (config output : json) :
  RunnerA.resolve_input w config = Ok (RunnerA.Returned output) →
  ∃ text, output = RunnerA.text_only_output w text.
Proof.
  unfold RunnerA.resolve_input. intros H.
  apply bind_ok_inv in H as (input & _ & H).
  apply bind_ok_inv in H as (file_path & _ & H).
  apply bind_ok_inv in H as ([|] & _ & H).
  - unfold RunnerA.from_file in H. apply reraise_ok_inv in H.
    apply bind_ok_inv in H as (path & _ & H).
    apply bind_ok_inv in H as (text & _ & H).
    destruct (nonempty (strip text)); [|discriminate].
    apply bind_ok_inv in H as (prompt & _ & H).
    destruct (is_str _ _); [|discriminate]. injection H as <-. eauto.
  - unfold RunnerA.from_text in H. destruct input; try discriminate.
    destruct (_ || _); [|discriminate]. apply reraise_ok_inv in H.
    apply bind_ok_inv in H as (text & _ & H).
    destruct (nonempty (strip text)); discriminate.
Qed.

Lemma run_ok_success (w : RunnerA.World) (config output : json) :
  RunnerA.result (RunnerA.run w config) = Ok output →
  ∃ fields, output = JObj fields ∧ lookup_field "success" fields = Some (JBool true).
Proof.
  unfold RunnerA.run.
  destruct (RunnerA.validate config RunnerA.required_fields) as [[]|e];
    [rewrite bind_ok | discriminate].
  destruct (RunnerA.resolve_input w config) as [[early|input]|e] eqn:Hres;
    [| |discriminate].
  - apply resolve_returned in Hres as [text ->]. intros [= <-]. by eexists.
  - destruct (RunnerA.resolve_api_key _ _) as [key|e]; [|discriminate].
    destruct (RunnerA.set_api_key _ key) as [env'|e]; [|discriminate].
    destruct (RunnerA.import_langextract w ≫= _) as [call|e]; [|discriminate].
    cbn [RunnerA.result]. intros H.
    apply bind_ok_inv in H as (result & _ & H).
    rewrite normalize_found, bind_ok in H. unfold RunnerA.save_visualization in H.
    destruct (truthy _).
    + apply bind_ok_inv in H as (name & _ & H). injection H as <-. by eexists.
    + injection H as <-. by eexists.
Qed.

(** X18: Runner A always prints exactly one object, and its exit status tells
    the [success] of that object: 0 with [true], 1 with [false], in which
    case the object holds the error, its type and the traceback. *)
Theorem exit_status_tells_success (w : RunnerA.World) :
  ∃ fields,
    Proc.stdout (RunnerA.main w) = [JObj fields]
    ∧ ((Proc.exit_code (RunnerA.main w) = 0%Z
        ∧ lookup_field "success" fields = Some (JBool true))
       ∨ (Proc.exit_code (RunnerA.main w) = 1%Z
          ∧ ∃ e, fields = [("success", JBool false); ("error", JStr (exn_msg e));
                           ("type", JStr (exn_type e));
                           ("traceback", JStr (RunnerA.format_exc w e))])).
Proof.
  destruct (RunnerA.stdin w) as [config|e] eqn:Hin.
  - rewrite (main_of_run w config Hin).
    destruct (RunnerA.result (RunnerA.run w config)) as [output|e] eqn:Hrun.
    + apply run_ok_success in Hrun as (fields & -> & Hsuccess).
      exists fields. split; [reflexivity|]. by left.
    + eexists. split; [reflexivity|]. right. split; [reflexivity|]. by exists e.
  - unfold RunnerA.main. rewrite Hin.
    eexists. split; [reflexivity|]. right. split; [reflexivity|]. by exists e.
Qed.

Lemma success_envelope_shape (extractions : list json) (envelope : json) :
  RunnerB.success_envelope extractions = Ok envelope →
  ∃ fields, envelope = JObj fields ∧ lookup_field "success" fields = Some (JBool true).
Proof.
  unfold RunnerB.success_envelope. intros H.
  repeat (apply bind_ok_inv in H as (? & _ & H)).
  injection H as <-. by eexists.
Qed.

(** X19: Runner B exits with status 1 when the library cannot be imported;
    otherwise with the status [argparse] gives when it ends the process (0
    after the help text, which is all that is printed then, 2 after a
    command line it refuses, with nothing printed to standard output), and
    with status 0 once the command line is parsed, whether the extraction
    succeeded or not: it has then printed exactly one object, a success
    envelope or [{success: false, error}] and nothing else. *)
Theorem runner_b_status (w : RunnerB.World) :
  Proc.exit_code (RunnerB.script w)
  = (if RunnerB.lx_installed w
     then match RunnerB.parse_args w with
          | RunnerB.Parsed _ => 0
          | RunnerB.HelpExit _ => 0
          | RunnerB.UsageError => 2
          end
     else 1)%Z
  ∧ (if RunnerB.lx_installed w
     then match RunnerB.parse_args w with
          | RunnerB.Parsed _ =>
              Proc.usage (RunnerB.script w) = None
              ∧ ∃ fields,
                  Proc.stdout (RunnerB.script w) = [JObj fields]
                  ∧ (lookup_field "success" fields = Some (JBool true)
                     ∨ ∃ e, fields = [("success", JBool false);
                                      ("error", JStr (exn_msg e))])
          | RunnerB.HelpExit help =>
              Proc.usage (RunnerB.script w) = Some help
              ∧ Proc.stdout (RunnerB.script w) = []
          | RunnerB.UsageError =>
              Proc.usage (RunnerB.script w) = None
              ∧ Proc.stdout (RunnerB.script w) = []
          end
     else Proc.usage (RunnerB.script w) = None
          ∧ Proc.stdout (RunnerB.script w) = [RunnerB.import_error]).
Proof.
  unfold RunnerB.script.
  destruct (RunnerB.lx_installed w); cbn [negb]; [|done].
  destruct (RunnerB.parse_args w) as [path|help|]; [|done..].
  destruct (RunnerB.load_config w path) as [config|e].
  2:{ do 2 (split; [reflexivity|]). eexists. split; [reflexivity|]. right. by exists e. }
  unfold RunnerB.run_extraction.
  destruct (RunnerB.prepare_call _ config) as [call|e].
  2:{ do 2 (split; [reflexivity|]). eexists. split; [reflexivity|]. right. by exists e. }
  cbv zeta.
  destruct (RunnerB.lx_extract w call _) as [result|e]; [rewrite bind_ok|].
  2:{ do 2 (split; [reflexivity|]). eexists. split; [reflexivity|]. right. by exists e. }
  destruct (RunnerB.process_results result) as [extractions|e]; [rewrite bind_ok|].
  2:{ do 2 (split; [reflexivity|]). eexists. split; [reflexivity|]. right. by exists e. }
  destruct (RunnerB.success_envelope extractions) as [envelope|e] eqn:Henv.
  - apply success_envelope_shape in Henv as (fields & -> & Hsuccess).
    do 2 (split; [reflexivity|]). exists fields. split; [reflexivity|]. by left.
  - do 2 (split; [reflexivity|]). eexists. split; [reflexivity|]. right. by exists e.
Qed.

(** Asked for its help text, Runner B prints it and nothing else. *)
Example help_run_b_outcome :
  Proc.usage (RunnerB.script Examples.help_run_b)
  = Some "usage: langextract_runner.py [-h] --config CONFIG"
  ∧ Proc.stdout (RunnerB.script Examples.help_run_b) = []
  ∧ Proc.exit_code (RunnerB.script Examples.help_run_b) = 0%Z
  ∧ Proc.lx_calls (RunnerB.script Examples.help_run_b) = [].
Proof. repeat split; reflexivity. Qed.

(** ** Runner B: the key *)

Lemma or_else_first_true (k a b c : json) :
  or_else (or_else (or_else k a) b) c = Spec.first_true [k; a; b; c].
Proof.
  unfold or_else. cbn [Spec.first_true].
  destruct (truthy k) eqn:Ek; [by rewrite Ek, Ek|].
  destruct (truthy a) eqn:Ea; [by rewrite Ea|].
  by destruct (truthy b) eqn:Eb.
Qed.

(** X20: Runner B takes its key from the first of the configuration,
    [LANGEXTRACT_API_KEY], [GEMINI_API_KEY] and [OPENAI_API_KEY] that has a
    value that is not empty, and calls the library all the same when none
    has: the [api_key] argument is then the last of them, [None] when
    [OPENAI_API_KEY] is not set. *)
Theorem runner_b_key_order (w : RunnerB.World) (path : string)
    (fields : list (string * json)) (examples : list Lx.ExampleData) :
  RunnerB.lx_installed w = true →
  RunnerB.argv_config w = Some path →
  RunnerB.load_config w path = Ok (JObj fields) →
  RunnerB.prepare_examples (JObj fields) = Ok examples →
  is_Some (lookup_field "text" fields) →
  is_Some (lookup_field "prompt_description" fields) →
  is_Some (lookup_field "model_id" fields) →
  ∃ call,
    Proc.lx_calls (RunnerB.script w) = [(call, RunnerB.environ w)]
    ∧ Lx.api_key call
      = Some (Spec.first_true
                [default JNull (lookup_field "api_key" fields);
                 of_option (RunnerB.environ w !! "LANGEXTRACT_API_KEY");
                 of_option (RunnerB.environ w !! "GEMINI_API_KEY");
                 of_option (RunnerB.environ w !! "OPENAI_API_KEY")]).
Proof.
  intros Hlx Harg%argv_config_parsed Hload Hex [text Htext] [prompt Hprompt] [model Hmodel].
  unfold RunnerB.script. rewrite Hlx, Harg, Hload. cbn [negb].
  unfold RunnerB.run_extraction, RunnerB.prepare_call.
  rewrite Hex, bind_ok. unfold RunnerB.resolve_api_key.
  cbn [get_method getitem]. rewrite !bind_ok, Htext, bind_ok, Hprompt, bind_ok, Hmodel.
  rewrite !bind_ok, or_else_first_true. cbv zeta.
  unfold mret, res_ret. cbv iota beta. eexists.
  match goal with
  | |- context [match ?m with Ok _ => _ | Raise _ => _ end] => by destruct m
  end.
Qed.

Lemma runner_b_key_order_witness :
  ∃ call,
    Proc.lx_calls (RunnerB.script Examples.three_run_b) = [(call, ∅)]
    ∧ Lx.api_key call = Some JNull.
Proof.
  destruct (runner_b_key_order Examples.three_run_b "cfg.json" _ [] eq_refl eq_refl
              eq_refl eq_refl) as (call & Hcalls & Hkey);
    [by eexists.. |].
  exists call. split; [exact Hcalls | exact Hkey].
Defined.

(** ** Examples and keys that are missing *)

(** X21: An extraction of an example that has no [attributes]: Runner A gives
    it the empty dict, Runner B fails with the [KeyError] of the key. *)
Theorem attributes_optional_in_a_only (fields : list (string * json)) (class text : json) :
  lookup_field "extraction_class" fields = Some class →
  lookup_field "extraction_text" fields = Some text →
  lookup_field "attributes" fields = None →
  RunnerA.example_extraction (JObj fields)
  = Ok {| Lx.extraction_class := class; Lx.extraction_text := text;
          Lx.attributes := JObj [] |}
  ∧ RunnerB.example_extraction (JObj fields) = Raise (KeyError "attributes").
Proof.
  intros Hclass Htext Hattr.
  unfold RunnerA.example_extraction, RunnerB.example_extraction.
  cbn [getitem get_method]. by rewrite Hclass, Htext, Hattr.
Qed.

Lemma attributes_optional_in_a_only_witness :
  RunnerA.prepare_examples (JObj [("examples", JList [Examples.bare_example])])
  = Ok [{| Lx.text := JStr "Ada met Bob.";
           Lx.extractions :=
             [{| Lx.extraction_class := JStr "person"; Lx.extraction_text := JStr "Ada";
                 Lx.attributes := JObj [] |}] |}]
  ∧ Proc.stdout (RunnerB.script Examples.bare_run_b)
    = [JObj [("success", JBool false); ("error", JStr "'attributes'")]].
Proof.
  destruct (attributes_optional_in_a_only
              [("extraction_class", JStr "person"); ("extraction_text", JStr "Ada")]
              (JStr "person") (JStr "Ada") eq_refl eq_refl eq_refl) as [Ha Hb].
  split.
  - unfold RunnerA.prepare_examples, RunnerA.example_data. cbn [getitem lookup_field].
    cbn -[RunnerA.example_extraction]. unfold Examples.bare_extraction. by rewrite Ha.
  - unfold RunnerB.script, RunnerB.run_extraction, RunnerB.prepare_call,
      RunnerB.prepare_examples, RunnerB.example_data.
    cbn -[RunnerB.example_extraction]. unfold Examples.bare_extraction. by rewrite Hb.
Defined.

(** X22: Runner B does not validate its configuration: a key it needs and does
    not find is reported by its quoted name alone, the first one in the
    order the script reads them, and the library is not called. *)
Theorem runner_b_missing_key (w : RunnerB.World) (path : string)
    (fields : list (string * json)) (key : string) (before after : list string) :
  RunnerB.lx_installed w = true →
  RunnerB.argv_config w = Some path →
  RunnerB.load_config w path = Ok (JObj fields) →
  ["examples"; "text"; "prompt_description"; "model_id"] = before ++ key :: after →
  (∀ k, k ∈ before → is_Some (lookup_field k fields)) →
  lookup_field key fields = None →
  (is_Some (lookup_field "examples" fields) →
   ∃ examples, RunnerB.prepare_examples (JObj fields) = Ok examples) →
  Proc.stdout (RunnerB.script w)
  = [JObj [("success", JBool false); ("error", JStr ("'" +:+ key +:+ "'"))]]
  ∧ Proc.exit_code (RunnerB.script w) = 0%Z
  ∧ Proc.lx_calls (RunnerB.script w) = [].
Proof.
  intros Hlx Harg%argv_config_parsed Hload Hsplit Hbefore Hnone Hexamples.
  unfold RunnerB.script. rewrite Hlx, Harg, Hload. cbn [negb].
  unfold RunnerB.run_extraction, RunnerB.prepare_call.
  destruct before as [|k1 before]; [injection Hsplit as <- _|].
  { unfold RunnerB.prepare_examples. cbn [getitem]. by rewrite Hnone. }
  injection Hsplit as <- Hsplit.
  destruct Hexamples as [examples ->]; [apply Hbefore; set_solver|].
  rewrite bind_ok. unfold RunnerB.resolve_api_key. cbn [get_method getitem].
  rewrite !bind_ok.
  destruct before as [|k2 before]; [injection Hsplit as <- _|].
  { by rewrite Hnone. }
  injection Hsplit as <- Hsplit.
  destruct (Hbefore "text") as [text ->]; [set_solver|]. rewrite bind_ok.
  destruct before as [|k3 before]; [injection Hsplit as <- _|].
  { by rewrite Hnone. }
  injection Hsplit as <- Hsplit.
  destruct (Hbefore "prompt_description") as [prompt ->]; [set_solver|]. rewrite bind_ok.
  destruct before as [|k4 before]; [injection Hsplit as <- _|].
  { by rewrite Hnone. }
  injection Hsplit as <- Hsplit. by destruct before.
Qed.

Lemma runner_b_missing_key_witness :
  Proc.stdout (RunnerB.script
                 (Examples.world_b (Ok (JObj [("examples", JList []);
                                              ("text", JStr "Ada met Bob.")]))
                                   ∅ Examples.one_found))
  = [JObj [("success", JBool false); ("error", JStr "'prompt_description'")]].
Proof.
  destruct (runner_b_missing_key
              (Examples.world_b (Ok (JObj [("examples", JList []);
                                           ("text", JStr "Ada met Bob.")]))
                                ∅ Examples.one_found)
              "cfg.json" [("examples", JList []); ("text", JStr "Ada met Bob.")]
              "prompt_description" ["examples"; "text"] ["model_id"]
              eq_refl eq_refl eq_refl eq_refl) as (Hout & _ & _).
  - intros k Hk. repeat (apply elem_of_cons in Hk as [-> | Hk]; [by eexists|]).
    by apply elem_of_nil in Hk.
  - reflexivity.
  - intros _. by eexists.
  - exact Hout.
Defined.

(** X23: The validation of Runner A asks for the keys, not for their types: an
    [inputText] that is not a string passes it, and the run then fails on
    [startswith] with an [AttributeError], which the envelope reports
    under [type]. *)
Theorem input_text_not_a_string (w : RunnerA.World) (fields : list (string * json))
    (v : json) :
  RunnerA.stdin w = Ok (JObj fields) →
  (∀ k, k ∈ RunnerA.required_fields → is_Some (lookup_field k fields)) →
  lookup_field "inputText" fields = Some v →
  (∀ s, v ≠ JStr s) →
  lookup_field "filePath" fields = None →
  RunnerA.main w
  = Spec.failed w
      (AttributeError ("'" +:+ type_name v +:+ "' object has no attribute 'startswith'"))
      (RunnerA.environ w) [].
Proof.
  intros Hin Hreq Hinput Hv Hpath.
  apply (main_unresolved w (JObj fields)); [done | by apply validate_present |].
  unfold RunnerA.resolve_input. cbn [getitem get_method].
  rewrite Hinput, bind_ok, Hpath. cbn [default from_option truthy]. rewrite !bind_ok.
  unfold RunnerA.from_text. destruct v; try reflexivity. by destruct (Hv s).
Qed.

Lemma input_text_not_a_string_witness :
  Proc.stdout (RunnerA.main Examples.null_text_run)
  = [JObj [("success", JBool false);
           ("error", JStr "'NoneType' object has no attribute 'startswith'");
           ("type", JStr "AttributeError");
           ("traceback", JStr "Traceback (most recent call last): AttributeError")]].
Proof.
  rewrite (input_text_not_a_string Examples.null_text_run _ JNull eq_refl);
    [reflexivity | | reflexivity | discriminate | reflexivity].
  intros k Hk. unfold RunnerA.required_fields in Hk.
  repeat (apply elem_of_cons in Hk as [-> | Hk]; [by eexists|]).
  by apply elem_of_nil in Hk.
Defined.

(** X24: An example that cannot be translated fails the run of Runner A with
    the exception as it is, not wrapped in a [ValueError]: a missing key
    is reported as a [KeyError] whose message is the quoted key. The
    resolved key, a string without NUL, has been written to the environment
    by then; the library is not called. *)
Theorem example_failure_report (w : RunnerA.World) (config : json)
    (input_text key : string) (e : Exn) :
  RunnerA.stdin w = Ok config →
  RunnerA.validate config RunnerA.required_fields = Ok tt →
  RunnerA.resolve_input w config = Ok (RunnerA.Proceed input_text) →
  RunnerA.resolve_api_key (RunnerA.environ w) config = Ok (JStr key) →
  has_nul key = false →
  RunnerA.lx_import w = None →
  RunnerA.prepare_examples config = Raise e →
  RunnerA.main w = Spec.failed w e (Spec.keyed w key) [].
Proof.
  intros Hin Hv Hres Hkey Hnul Himport Hex.
  rewrite (main_of_run w config Hin), (run_proceeds w config input_text Hv Hres), Hkey.
  cbn [RunnerA.set_api_key]. rewrite Hnul. unfold RunnerA.import_langextract.
  by rewrite Himport, bind_ok, Hex.
Qed.

Lemma example_failure_report_witness :
  Proc.stdout (RunnerA.main Examples.no_text_example_run)
  = [JObj [("success", JBool false);
           ("error", JStr "'text'");
           ("type", JStr "KeyError");
           ("traceback", JStr "Traceback (most recent call last): KeyError")]].
Proof.
  rewrite (example_failure_report Examples.no_text_example_run _ "Ada met Bob." "secret"
             (KeyError "text") eq_refl);
    reflexivity.
Defined.
